(** * Fee-adaptive submission and two-phase sweep of [src/index.js]

    A shallow embedding of the script's asynchronous functions as state and
    exception passing programs over an abstract ledger node, and the
    properties of its fee escalation, sweep amounts, settlement check and
    of its two [while (true)] loops. *)

From Stdlib Require Import ZArith List String Bool Lia.
Import ListNotations.
Open Scope Z_scope.

(** ** Values

    JavaScript [BigInt] is an unbounded integer: [Z].  Its [/] truncates
    toward zero: [Z.quot].  A field typed [null | bigint] is an [option Z]. *)

Definition Address := string.

Definition CLAIM_CONTRACT : Address := "0x87bAa1694381aE3eCaE2660d97fe60404080Eb64"%string.
Definition TOKEN_CONTRACT : Address := "0x1789e0043623282D5DCc7F213d703C6D8BAfBB04"%string.
Definition RECEIVER : Address := "0x94f9ae4c07d32d0ad9f21f8f20f4551523e77169"%string.

(** What [provider.getFeeData()] resolves to. *)
Record FeeData := mkFeeData {
  fd_gasPrice : option Z;
  fd_maxFeePerGas : option Z;
  fd_maxPriorityFeePerGas : option Z
}.

(** A transaction request or an overrides object: a JS object whose keys
    may be absent.  [{}] is [emptyRequest]. *)
Record TxRequest := mkTxRequest {
  req_to : option Address;
  req_value : option Z;
  req_maxFeePerGas : option Z;
  req_maxPriorityFeePerGas : option Z;
  req_gasPrice : option Z;
  req_type : option Z
}.

Definition emptyRequest : TxRequest := mkTxRequest None None None None None None.

Record TxResponse := mkTxResponse { tx_hash : Z }.

Record Receipt := mkReceipt {
  rc_transactionHash : Z;
  rc_status : option Z
}.

(** The [description] argument of [sendWithDynamicGas]. *)
Inductive Description :=
| DescClaim
| DescTransfer (symbol : string).

(** Exceptions.  [NodeError] is anything raised outside the script: what
    the provider, a contract call or a wait rejects with, and what an
    ethers helper throws; the other three are the script's own [throw]s. *)
Inductive Error :=
| NodeError (code : Z)
| TxFailedError (description : Description)
| NoGasPriceError
| NativeTransferFailedError.

Inductive Res (A : Type) :=
| Ok (a : A)
| Throw (e : Error).
Arguments Ok {A} a.
Arguments Throw {A} e.

Definition isOk {A} (r : Res A) : bool :=
  match r with Ok _ => true | Throw _ => false end.

(** JS truthiness of a [null | bigint]: [null] and [0n] are falsy. *)
Definition truthy (x : option Z) : bool :=
  match x with
  | None => false
  | Some v => negb (v =? 0)
  end.

(** The [bigint] read from a field that a truthiness guard has checked. *)
Definition bigint (x : option Z) : Z :=
  match x with
  | Some v => v
  | None => 0
  end.

(** [receipt.status !== 1] *)
Definition status_is_1 (r : Receipt) : bool :=
  match rc_status r with
  | Some 1 => true
  | _ => false
  end.

(** ** Pure blocks of the two submitting functions *)

(** Lines 46-55 of [sendWithDynamicGas]: the [overrides] object. *)
Definition overrides (feeData : FeeData) : TxRequest :=
  if truthy (fd_maxFeePerGas feeData) && truthy (fd_maxPriorityFeePerGas feeData) then
    let adjMaxFee := Z.quot (bigint (fd_maxFeePerGas feeData) * 120) 100 in
    let adjMaxPriority := Z.quot (bigint (fd_maxPriorityFeePerGas feeData) * 120) 100 in
    mkTxRequest None None (Some adjMaxFee) (Some adjMaxPriority) None None
  else if truthy (fd_gasPrice feeData) then
    let adjGasPrice := Z.quot (bigint (fd_gasPrice feeData) * 120) 100 in
    mkTxRequest None None None None (Some adjGasPrice) None
  else emptyRequest.

(** Lines 108-118 of [transferAllNativeMinusGas]: the [fee] to reserve. *)
Definition fee (gasLimit : Z) (feeData : FeeData) : Res Z :=
  if truthy (fd_maxFeePerGas feeData) && truthy (fd_maxPriorityFeePerGas feeData) then
    let adjMaxFee := Z.quot (bigint (fd_maxFeePerGas feeData) * 120) 100 in
    Ok (gasLimit * adjMaxFee)
  else if truthy (fd_gasPrice feeData) then
    let adjGasPrice := Z.quot (bigint (fd_gasPrice feeData) * 120) 100 in
    Ok (gasLimit * adjGasPrice)
  else Throw NoGasPriceError.

(** Lines 126-136 of [transferAllNativeMinusGas]: the [txReq] object. *)
Definition txReq (to : Address) (value : Z) (feeData : FeeData) : TxRequest :=
  if truthy (fd_maxFeePerGas feeData) && truthy (fd_maxPriorityFeePerGas feeData) then
    let adjMaxFee := Z.quot (bigint (fd_maxFeePerGas feeData) * 120) 100 in
    let adjMaxPriority := Z.quot (bigint (fd_maxPriorityFeePerGas feeData) * 120) 100 in
    mkTxRequest (Some to) (Some value) (Some adjMaxFee) (Some adjMaxPriority) None (Some 2)
  else if truthy (fd_gasPrice feeData) then
    let adjGasPrice := Z.quot (bigint (fd_gasPrice feeData) * 120) 100 in
    mkTxRequest (Some to) (Some value) None None (Some adjGasPrice) None
  else mkTxRequest (Some to) (Some value) None None None None.

(** ** The ledger node

    Every capability the script awaits, as a transition of an abstract world
    [W].  The node sees the arguments of each call and may answer as it
    likes, also with a rejection.  Two more things are not the script's to
    decide and are kept with the node: [ethers_formatUnits value decimals],
    the helper of line 84, which can throw, and [first_rejection], which
    tells, when both promises of a [Promise.all] reject, whether the first
    one's rejection arrived first. *)
Record Node (W : Type) := mkNode {
  signer_address : Address;
  provider_getFeeData : W -> Res FeeData * W;
  provider_getBalance : Address -> W -> Res Z * W;
  provider_estimateGas : Address -> Address -> Z -> W -> Res Z * W;
  erc20_decimals : Address -> W -> Res Z * W;
  erc20_symbol : Address -> W -> Res string * W;
  erc20_balanceOf : Address -> Address -> W -> Res Z * W;
  erc20_transfer : Address -> Address -> Z -> TxRequest -> W -> Res TxResponse * W;
  claim_claim : TxRequest -> W -> Res TxResponse * W;
  signer_sendTransaction : TxRequest -> W -> Res TxResponse * W;
  tx_wait : TxResponse -> W -> Res Receipt * W;
  timer : Z -> W -> W;
  ethers_formatUnits : Z -> Z -> Res string;
  first_rejection : W -> bool
}.
Arguments signer_address {W} _.
Arguments provider_getFeeData {W} _ _.
Arguments provider_getBalance {W} _ _ _.
Arguments provider_estimateGas {W} _ _ _ _ _.
Arguments erc20_decimals {W} _ _ _.
Arguments erc20_symbol {W} _ _ _.
Arguments erc20_balanceOf {W} _ _ _ _.
Arguments erc20_transfer {W} _ _ _ _ _ _.
Arguments claim_claim {W} _ _ _.
Arguments signer_sendTransaction {W} _ _ _.
Arguments tx_wait {W} _ _ _.
Arguments timer {W} _ _ _.
Arguments ethers_formatUnits {W} _ _ _.
Arguments first_rejection {W} _ _.

(** ** What a run leaves behind

    The script's observable steps, in order: the entry of each of its
    functions that the loops call, each timer, and each transaction handed
    to the signer with the request it carried. *)
Inductive Submission :=
| SubClaim (ov : TxRequest)
| SubTransfer (token to : Address) (amount : Z) (ov : TxRequest)
| SubNative (req : TxRequest).

Inductive Event :=
| EvWait (ms : Z)
| EvClaimTokens
| EvGetTokenBalance
| EvTransferAllToken
| EvTransferAllNative
| EvEstimateGas
| EvSubmit (sub : Submission).

Record State (W : Type) := mkState {
  world : W;
  trace : list Event
}.
Arguments mkState {W} _ _.
Arguments world {W} _.
Arguments trace {W} _.

(** ** The monad of [async] functions: state and exceptions *)

Definition M (W A : Type) : Type := State W -> Res A * State W.

Definition ret {W A} (a : A) : M W A := fun s => (Ok a, s).

Definition throw {W A} (e : Error) : M W A := fun s => (Throw e, s).

Definition bind {W A B} (m : M W A) (k : A -> M W B) : M W B :=
  fun s =>
    match m s with
    | (Ok a, s') => k a s'
    | (Throw e, s') => (Throw e, s')
    end.

Notation "x <- m ;; k" := (bind m (fun x => k))
  (at level 61, m at next level, right associativity).
Notation "m ;;; k" := (bind m (fun _ => k))
  (at level 61, right associativity).

(** [try { body } catch (e) { handler }] *)
Definition try_catch {W A} (body : M W A) (handler : Error -> M W A) : M W A :=
  fun s =>
    match body s with
    | (Ok a, s') => (Ok a, s')
    | (Throw e, s') => handler e s'
    end.

(** [await Promise.all([p, q])]: both calls are started, in order; the
    result rejects when one of them does, and when both do, with the
    rejection that arrived first, which [first] tells. *)
Definition promise_all {W A B} (first : W -> bool) (p : M W A) (q : M W B)
    : M W (A * B) :=
  fun s =>
    let (ra, s1) := p s in
    let (rb, s2) := q s1 in
    match ra, rb with
    | Ok a, Ok b => (Ok (a, b), s2)
    | Throw e, Ok _ => (Throw e, s2)
    | Ok _, Throw e => (Throw e, s2)
    | Throw e1, Throw e2 =>
        (Throw (if first (world s2) then e1 else e2), s2)
    end.

(** An awaited call to the node. *)
Definition call {W A} (op : W -> Res A * W) : M W A :=
  fun s => let (r, w) := op (world s) in (r, mkState w (trace s)).

Definition emit {W} (e : Event) : M W unit :=
  fun s => (Ok tt, mkState (world s) (trace s ++ [e])).

Definition lift {W A} (r : Res A) : M W A := fun s => (r, s).

(** Outcome of a [while (true)] loop run for at most [fuel] passes: it
    reached its [break], or the passes ran out; the state reached is kept
    in both cases. *)
Inductive Outcome :=
| Exited
| OutOfFuel.

(** The functions of the script, in its order.  [console.log] calls are
    left out, what they are given is not when it can throw: that is line
    84's [ethers.formatUnits(bal, decimals)]. *)
Section Engine.

Context {W : Type} (node : Node W).

(** [wait(ms)] *)
Definition wait (ms : Z) : M W unit :=
  emit (EvWait ms) ;;;
  call (fun w => (Ok tt, timer node ms w)).

(** [sendWithDynamicGas(txFunc, description)] *)
Definition sendWithDynamicGas (txFunc : TxRequest -> M W TxResponse)
    (description : Description) : M W Receipt :=
  feeData <- call (provider_getFeeData node) ;;
  tx <- txFunc (overrides feeData) ;;
  receipt <- call (tx_wait node tx) ;;
  if status_is_1 receipt then ret receipt
  else throw (TxFailedError description).

(** [claimTokens(signer)] *)
Definition claimTokens : M W Receipt :=
  emit EvClaimTokens ;;;
  sendWithDynamicGas
    (fun ov => emit (EvSubmit (SubClaim ov)) ;;; call (claim_claim node ov))
    DescClaim.

(** [getTokenBalance(provider, owner, tokenAddress)] *)
Definition getTokenBalance (owner tokenAddress : Address) : M W Z :=
  emit EvGetTokenBalance ;;;
  call (erc20_balanceOf node tokenAddress owner).

(** [transferAllToken(signer, to, tokenAddress)]; [None] is [null]. *)
Definition transferAllToken (to tokenAddress : Address) : M W (option Receipt) :=
  emit EvTransferAllToken ;;;
  ds <- promise_all (first_rejection node)
                    (call (erc20_decimals node tokenAddress))
                    (call (erc20_symbol node tokenAddress)) ;;
  let decimals := fst ds in
  let symbol := snd ds in
  let owner := signer_address node in
  bal <- call (erc20_balanceOf node tokenAddress owner) ;;
  if bal =? 0 then ret None
  else
    lift (ethers_formatUnits node bal decimals) ;;;
    receipt <- sendWithDynamicGas
      (fun ov => emit (EvSubmit (SubTransfer tokenAddress to bal ov)) ;;;
                 call (erc20_transfer node tokenAddress to bal ov))
      (DescTransfer symbol) ;;
    ret (Some receipt).

(** Lines 126-143 of [transferAllNativeMinusGas]: the request is built,
    sent and its receipt awaited. *)
Definition sendNative (to : Address) (value : Z) (feeData : FeeData)
    : M W (option Receipt) :=
  let txReq := txReq to value feeData in
  tx <- (emit (EvSubmit (SubNative txReq)) ;;;
         call (signer_sendTransaction node txReq)) ;;
  receipt <- call (tx_wait node tx) ;;
  if status_is_1 receipt then ret (Some receipt)
  else throw NativeTransferFailedError.

(** Lines 101-125 of [transferAllNativeMinusGas], once [balance] and
    [feeData] are read and [balance] is not [0n]: the estimate with its
    fallback, the fee, the balance test; then [sendNative]. *)
Definition sweepNative (to : Address) (balance : Z) (feeData : FeeData)
    : M W (option Receipt) :=
  let address := signer_address node in
  gasLimit <- try_catch
                (emit EvEstimateGas ;;; call (provider_estimateGas node to address 1))
                (fun _ => ret 21000) ;;
  fee <- lift (fee gasLimit feeData) ;;
  if balance <=? fee then ret None
  else
    let value := balance - fee in
    sendNative to value feeData.

(** [transferAllNativeMinusGas(signer, to)]; [None] is [null]. *)
Definition transferAllNativeMinusGas (to : Address) : M W (option Receipt) :=
  emit EvTransferAllNative ;;;
  let address := signer_address node in
  bf <- promise_all (first_rejection node)
                    (call (provider_getBalance node address))
                    (call (provider_getFeeData node)) ;;
  let balance := fst bf in
  let feeData := snd bf in
  if balance =? 0 then ret None
  else sweepNative to balance feeData.

(** The guarded sweep of both loops of [main]:
    [if (tokenBal && tokenBal > 0n) { transferAllToken; transferAllNativeMinusGas }].
    The result tells whether the branch was taken and ran to its end. *)
Definition checkAndSweep : M W bool :=
  tokenBal <- getTokenBalance (signer_address node) TOKEN_CONTRACT ;;
  if negb (tokenBal =? 0) && (0 <? tokenBal) then
    transferAllToken RECEIVER TOKEN_CONTRACT ;;;
    transferAllNativeMinusGas RECEIVER ;;;
    ret true
  else ret false.

(** First loop of [main] (lines 162-184). *)
Fixpoint claimLoop (fuel : nat) (s : State W) : Outcome * State W :=
  match fuel with
  | O => (OutOfFuel, s)
  | S fuel' =>
      match claimTokens s with
      | (Ok _, s1) => (Exited, s1)
      | (Throw _, s1) =>
          let s2 := snd (wait 5000 s1) in
          let s3 := snd (try_catch checkAndSweep (fun _ => ret false) s2) in
          claimLoop fuel' s3
      end
  end.

(** Second loop of [main] (lines 188-201). *)
Fixpoint monitorLoop (fuel : nat) (s : State W) : Outcome * State W :=
  match fuel with
  | O => (OutOfFuel, s)
  | S fuel' =>
      match try_catch checkAndSweep (fun _ => ret false) s with
      | (Ok true, s1) => (Exited, s1)
      | (_, s1) => monitorLoop fuel' s1
      end
  end.

(** [main] from its first loop on; the configuration checks before it read
    no ledger state. *)
Definition main (fuel1 fuel2 : nat) (s : State W) : Outcome * State W :=
  match claimLoop fuel1 s with
  | (Exited, s1) => monitorLoop fuel2 s1
  | (OutOfFuel, s1) => (OutOfFuel, s1)
  end.

End Engine.

(** ** Reading a run *)

(** The transactions handed to the signer, oldest first. *)
Definition submissions (t : list Event) : list Submission :=
  flat_map (fun e => match e with EvSubmit sub => [sub] | _ => [] end) t.

(** The delays of the timers set, oldest first. *)
Definition waits (t : list Event) : list Z :=
  flat_map (fun e => match e with EvWait ms => [ms] | _ => [] end) t.

Definition isClaimTokens (e : Event) : bool :=
  match e with EvClaimTokens => true | _ => false end.

Definition isPoll (e : Event) : bool :=
  match e with EvGetTokenBalance => true | _ => false end.

Definition isTokenSweep (e : Event) : bool :=
  match e with EvTransferAllToken => true | _ => false end.

Definition isNativeSweep (e : Event) : bool :=
  match e with EvTransferAllNative => true | _ => false end.

Definition count (p : Event -> bool) (t : list Event) : nat :=
  List.length (filter p t).

(** Events raised below the functions that the loops call. *)
Definition inner (e : Event) : bool :=
  match e with
  | EvSubmit _ | EvEstimateGas => true
  | _ => false
  end.

(** The price per unit an offer stands for: its max-fee field when it has
    one, else its flat price. *)
Definition pricePerUnit (offer : TxRequest) : Z :=
  match req_maxFeePerGas offer with
  | Some m => m
  | None => bigint (req_gasPrice offer)
  end.

(** An offer of the variable-fee kind, and one of the flat kind. *)
Definition priorityStyle (offer : TxRequest) : Prop :=
  req_maxFeePerGas offer <> None /\
  req_maxPriorityFeePerGas offer <> None /\
  req_gasPrice offer = None.

Definition flatStyle (offer : TxRequest) : Prop :=
  req_maxFeePerGas offer = None /\
  req_maxPriorityFeePerGas offer = None /\
  req_gasPrice offer <> None.

(** A fee field that the truthiness tests of the script take as missing. *)
Definition absentOrZero (x : option Z) : Prop := x = None \/ x = Some 0.

(** Fee fields are unsigned quantities. *)
Definition unsigned (x : option Z) : Prop :=
  match x with
  | Some v => 0 <= v
  | None => True
  end.

Definition unsignedFees (fd : FeeData) : Prop :=
  unsigned (fd_gasPrice fd) /\
  unsigned (fd_maxFeePerGas fd) /\
  unsigned (fd_maxPriorityFeePerGas fd).

(** A snapshot from which the script can price a transaction. *)
Definition priced (fd : FeeData) : bool :=
  truthy (fd_maxFeePerGas fd) && truthy (fd_maxPriorityFeePerGas fd)
  || truthy (fd_gasPrice fd).

(** The estimate a native sweep works with, given the node's answer. *)
Definition gasLimitOf (r : Res Z) : Z :=
  match r with
  | Ok g => g
  | Throw _ => 21000
  end.

(** [node] with every gas estimate answered by [g]; the world moves as it
    does under [node]. *)
Definition estimating {W} (g : Z) (node : Node W) : Node W :=
  mkNode W
    (signer_address node)
    (provider_getFeeData node)
    (provider_getBalance node)
    (fun to from value w => (Ok g, snd (provider_estimateGas node to from value w)))
    (erc20_decimals node)
    (erc20_symbol node)
    (erc20_balanceOf node)
    (erc20_transfer node)
    (claim_claim node)
    (signer_sendTransaction node)
    (tx_wait node)
    (timer node)
    (ethers_formatUnits node)
    (first_rejection node).


(** [node] with every wait for a receipt rejected. *)
Definition unsettled {W} (node : Node W) : Node W :=
  mkNode W
    (signer_address node)
    (provider_getFeeData node)
    (provider_getBalance node)
    (provider_estimateGas node)
    (erc20_decimals node)
    (erc20_symbol node)
    (erc20_balanceOf node)
    (erc20_transfer node)
    (claim_claim node)
    (signer_sendTransaction node)
    (fun tx w => (Throw (NodeError 5), snd (tx_wait node tx w)))
    (timer node)
    (ethers_formatUnits node)
    (first_rejection node).

(** The state in which the next claim attempt starts after a failed one:
    lines 164-183 run from [s]. *)
Definition retryStep {W} (node : Node W) (s : State W) : State W :=
  let s1 := snd (claimTokens node s) in
  let s2 := snd (wait node 5000 s1) in
  snd (try_catch (checkAndSweep node) (fun _ => ret false) s2).

(** ** A scripted node, for running the script on concrete answers *)

Record Counters := mkCounters {
  n_claim : nat;
  n_balanceOf : nat
}.

Record Script := mkScript {
  sc_feeData : Res FeeData;
  sc_balance : Res Z;
  sc_estimateGas : Res Z;
  sc_tokenBalance : nat -> Res Z;
  sc_claimStatus : nat -> option Z;
  sc_status : option Z
}.

(** Claims get their index as hash and settle with [sc_claimStatus]; a
    claim whose scripted status is [None] is rejected at submission.  Every
    other transaction has hash 1000 and settles with [sc_status].  The
    token has 18 decimals; [ethers.formatUnits] rejects more than 80, and
    its text, which is only logged, is left empty. *)
Definition scripted (sc : Script) : Node Counters :=
  mkNode Counters
    "0x00000000000000000000000000000000000000aa"%string
    (fun w => (sc_feeData sc, w))
    (fun _ w => (sc_balance sc, w))
    (fun _ _ _ w => (sc_estimateGas sc, w))
    (fun _ w => (Ok 18, w))
    (fun _ w => (Ok "TKN"%string, w))
    (fun _ _ w => (sc_tokenBalance sc (n_balanceOf w),
                   mkCounters (n_claim w) (S (n_balanceOf w))))
    (fun _ _ _ _ w => (Ok (mkTxResponse 1000), w))
    (fun _ w =>
       (match sc_claimStatus sc (n_claim w) with
        | Some _ => Ok (mkTxResponse (Z.of_nat (n_claim w)))
        | None => Throw (NodeError 1)
        end,
        mkCounters (S (n_claim w)) (n_balanceOf w)))
    (fun _ w => (Ok (mkTxResponse 1000), w))
    (fun tx w =>
       (Ok (mkReceipt (tx_hash tx)
              (if tx_hash tx <? 1000
               then sc_claimStatus sc (Z.to_nat (tx_hash tx))
               else sc_status sc)), w))
    (fun _ w => w)
    (fun _ decimals => if 80 <? decimals then Throw (NodeError 80) else Ok EmptyString)
    (fun _ => true).

Definition start : State Counters := mkState (mkCounters 0 0) [].

(** A variable-fee snapshot, a flat one, one with a zero priority fee and
    one with nothing in it. *)
Definition feeData1559 : FeeData := mkFeeData (Some 7) (Some 2000000000) (Some 1000000001).
Definition feeDataLegacy : FeeData := mkFeeData (Some 2000000001) None None.
Definition feeDataZeroTip : FeeData := mkFeeData (Some 10) (Some 14) (Some 0).
Definition feeDataNone : FeeData := mkFeeData None None None.

(** The claim fails twice, then settles with status 1; the token balance
    is 0 three times, then 42. *)
Definition demoScript (fd : Res FeeData) : Script :=
  mkScript fd (Ok 1000000000000000000) (Throw (NodeError 2))
    (fun k => if (k <? 3)%nat then Ok 0 else Ok 42)
    (fun k => if (k <? 2)%nat then Some 0 else Some 1)
    (Some 1).

(** Every call answered, every transaction settled with status 1; the
    native balance is [10^18] and the token balance 42. *)
Definition settling (fd : FeeData) : Script :=
  mkScript (Ok fd) (Ok 1000000000000000000) (Ok 21000)
    (fun _ => Ok 42) (fun _ => Some 1) (Some 1).

(** As [settling], with a native balance [b] and receipts of status [st]. *)
Definition holding (b : Z) (st : option Z) (fd : FeeData) : Script :=
  mkScript (Ok fd) (Ok b) (Ok 21000) (fun _ => Ok 42) (fun _ => st) st.

(** A flat price that escalates to [2 * 10^9]. *)
Definition feeDataFlat : FeeData := mkFeeData (Some 1666666667) None None.

(** [m] only appends to the trace, and only events that [ok] accepts. *)
Definition emitsOnly {W A} (ok : Event -> bool) (m : M W A) : Prop :=
  forall s, exists evs,
    trace (snd (m s)) = trace s ++ evs /\ forallb ok evs = true.

(** Events other than a claim attempt and a timer. *)
Definition quiet (e : Event) : bool :=
  match e with
  | EvClaimTokens | EvWait _ => false
  | _ => true
  end.

(** ** The environment check

    A JS string is a sequence of UTF-16 code units.  [trim] removes the
    white space and line terminators of ECMAScript from both ends. *)

Definition JsString := list N.

Definition isWhiteSpace (c : N) : bool :=
  existsb (N.eqb c)
    [9; 10; 11; 12; 13; 32; 160; 5760; 8232; 8233; 8239; 8287; 12288; 65279]%N
  || (8192 <=? c)%N && (c <=? 8202)%N.

Fixpoint trimStart (s : JsString) : JsString :=
  match s with
  | [] => []
  | c :: r => if isWhiteSpace c then trimStart r else s
  end.

Definition trimEnd (s : JsString) : JsString := rev (trimStart (rev s)).

Definition trim (s : JsString) : JsString := trimEnd (trimStart s).

(** [process.env]: a name has a string or is [undefined]. *)
Definition ProcessEnv := string -> option JsString.

Definition REQUIRED_ENVS : list string := ["RPC_URL"%string; "PRIVATE_KEY"%string].

(** [!process.env[k] || String(process.env[k]).trim() === ''] *)
Definition isMissing (env : ProcessEnv) (k : string) : bool :=
  match env k with
  | None => true
  | Some [] => true
  | Some v => match trim v with [] => true | _ => false end
  end.

(** The error of [assertEnv]; [names] is [missing.join(', ')]. *)
Inductive ConfigError :=
| MissingEnvError (names : string).

(** [assertEnv()]: [inr tt] when it returns, [inl] when it throws. *)
Definition assertEnv (env : ProcessEnv) : ConfigError + unit :=
  let missing := filter (isMissing env) REQUIRED_ENVS in
  if (0 <? List.length missing)%nat
  then inl (MissingEnvError (String.concat ", " missing))
  else inr tt.

(** An environment with the two names set. *)
Definition envOf (rpc key : option JsString) : ProcessEnv :=
  fun k =>
    if String.eqb k "RPC_URL" then rpc
    else if String.eqb k "PRIVATE_KEY" then key
    else None.

(** A variable that is unset, empty or made of white space only. *)
Definition unusable (env : ProcessEnv) (k : string) : Prop :=
  match env k with
  | None => True
  | Some v => forallb isWhiteSpace v = true
  end.

(** ** Reading the loops *)

(** The state in which attempt [n] starts when the attempts before it
    failed. *)
Fixpoint afterFailures {W} (node : Node W) (n : nat) (s : State W) : State W :=
  match n with
  | O => s
  | S n' => afterFailures node n' (retryStep node s)
  end.

(** What one pass over the guarded sweep appends, and whether the pass ran
    to the end of its branch: only a poll; a poll and a token sweep that
    raised; a poll and both sweeps. *)
Inductive Pass : bool -> list Event -> Prop :=
| PassIdle : Pass false [EvGetTokenBalance]
| PassTokenRaised (e1 : list Event) :
    forallb inner e1 = true ->
    Pass false (EvGetTokenBalance :: EvTransferAllToken :: e1)
| PassSwept (done : bool) (e1 e2 : list Event) :
    forallb inner e1 = true -> forallb inner e2 = true ->
    Pass done (EvGetTokenBalance :: EvTransferAllToken :: e1 ++
               EvTransferAllNative :: e2).

(** A token balance answer on which no sweep is started. *)
Definition nothingToSweep (r : Res Z) : Prop :=
  match r with
  | Ok b => b <= 0
  | Throw _ => True
  end.

(** Events of a claim phase in which no sweep is started: attempts and
    submissions of the claim, timers and polls. *)
Definition claimOnly (e : Event) : bool :=
  match e with
  | EvClaimTokens | EvWait _ | EvGetTokenBalance | EvSubmit (SubClaim _) => true
  | _ => false
  end.

(** Polls never outnumbered by token sweeps, nor those by native sweeps. *)
Definition ordered (evs : list Event) : Prop :=
  (count isNativeSweep evs <= count isTokenSweep evs)%nat /\
  (count isTokenSweep evs <= count isPoll evs)%nat.

(** Scripts: every claim rejected at submission; a token balance of zero
    throughout; a native balance read that is rejected. *)
Definition rejectingScript : Script :=
  mkScript (Ok feeData1559) (Ok 1000000000000000000) (Ok 21000)
    (fun _ => Ok 42) (fun _ => None) (Some 1).

Definition idleScript : Script :=
  mkScript (Ok feeData1559) (Ok 1000000000000000000) (Ok 21000)
    (fun _ => Ok 0) (fun _ => Some 1) (Some 1).

Definition unreadableScript : Script :=
  mkScript (Ok feeData1559) (Throw (NodeError 3)) (Ok 21000)
    (fun _ => Ok 42) (fun _ => Some 1) (Some 1).

(** * Properties *)

(** ** Escalation arithmetic *)

Lemma escalate_floor (a : Z) :
  0 <= a -> Z.quot (a * 120) 100 = a * 120 / 100.
Proof.
  intros Ha. apply Z.quot_div_nonneg; lia.
Qed.

Lemma escalate_nonneg (a : Z) :
  0 <= a -> 0 <= Z.quot (a * 120) 100.
Proof.
  intros Ha. rewrite escalate_floor by assumption.
  apply Z.div_pos; lia.
Qed.

Lemma truthy_positive (a : Z) : 0 < a -> truthy (Some a) = true.
Proof.
  intros Ha. unfold truthy.
  destruct (Z.eqb_spec a 0) as [E | _]; [lia | reflexivity].
Qed.

Lemma overrides_unpriced (fd : FeeData) :
  priced fd = false -> overrides fd = emptyRequest.
Proof.
  unfold priced, overrides. intros H.
  apply orb_false_elim in H as [-> ->]. reflexivity.
Qed.

Lemma fee_unpriced (g : Z) (fd : FeeData) :
  priced fd = false -> fee g fd = Throw NoGasPriceError.
Proof.
  unfold priced, fee. intros H.
  apply orb_false_elim in H as [-> ->]. reflexivity.
Qed.

(** The reserve is the estimate times the price per unit of the offer. *)
Lemma fee_priced (g : Z) (fd : FeeData) :
  priced fd = true -> fee g fd = Ok (g * pricePerUnit (overrides fd)).
Proof.
  unfold priced, fee, overrides, pricePerUnit. intros H.
  destruct (truthy (fd_maxFeePerGas fd) && truthy (fd_maxPriorityFeePerGas fd)).
  - reflexivity.
  - simpl in H. rewrite H. reflexivity.
Qed.

Lemma txReq_pricePerUnit (to : Address) (v : Z) (fd : FeeData) :
  pricePerUnit (txReq to v fd) = pricePerUnit (overrides fd).
Proof.
  unfold txReq, overrides, pricePerUnit.
  destruct (truthy (fd_maxFeePerGas fd) && truthy (fd_maxPriorityFeePerGas fd));
    [reflexivity |].
  destruct (truthy (fd_gasPrice fd)); reflexivity.
Qed.

Lemma txReq_value (to : Address) (v : Z) (fd : FeeData) :
  req_value (txReq to v fd) = Some v /\ req_to (txReq to v fd) = Some to.
Proof.
  unfold txReq.
  destruct (truthy (fd_maxFeePerGas fd) && truthy (fd_maxPriorityFeePerGas fd));
    [split; reflexivity |].
  destruct (truthy (fd_gasPrice fd)); split; reflexivity.
Qed.

Lemma pricePerUnit_nonneg (fd : FeeData) :
  unsignedFees fd -> 0 <= pricePerUnit (overrides fd).
Proof.
  intros (Hg & Hm & _). unfold overrides, pricePerUnit.
  destruct (truthy (fd_maxFeePerGas fd) && truthy (fd_maxPriorityFeePerGas fd)).
  - cbn. destruct (fd_maxFeePerGas fd); cbn in *; [now apply escalate_nonneg | lia].
  - destruct (truthy (fd_gasPrice fd)); cbn; [| lia].
    destruct (fd_gasPrice fd); cbn in *; [now apply escalate_nonneg | lia].
Qed.

Lemma absentOrZero_falsy (x : option Z) : absentOrZero x -> truthy x = false.
Proof.
  intros [-> | ->]; reflexivity.
Qed.

(** C2, as amended: a snapshot whose max-fee and max-priority-fee fields
    hold non-zero values [a] and [b] gives, in the overrides of a contract
    call and in the request of a native transfer alike, an offer of the
    priority kind with [floor (a * 120 / 100)] and [floor (b * 120 / 100)]
    in those fields; a snapshot in which one of these two fields is absent
    or zero and the flat price is a non-zero [p] gives a flat offer with
    [floor (p * 120 / 100)]. *)
Theorem fee_offer_escalation (fd : FeeData) :
  (forall a b : Z,
      fd_maxFeePerGas fd = Some a -> fd_maxPriorityFeePerGas fd = Some b ->
      0 < a -> 0 < b ->
      overrides fd =
        mkTxRequest None None (Some (a * 120 / 100)) (Some (b * 120 / 100)) None None /\
      priorityStyle (overrides fd) /\
      forall (to : Address) (value : Z),
        txReq to value fd =
          mkTxRequest (Some to) (Some value)
            (Some (a * 120 / 100)) (Some (b * 120 / 100)) None (Some 2)) /\
  (forall p : Z,
      absentOrZero (fd_maxFeePerGas fd) \/
      absentOrZero (fd_maxPriorityFeePerGas fd) ->
      fd_gasPrice fd = Some p -> 0 < p ->
      overrides fd = mkTxRequest None None None None (Some (p * 120 / 100)) None /\
      flatStyle (overrides fd) /\
      forall (to : Address) (value : Z),
        txReq to value fd =
          mkTxRequest (Some to) (Some value) None None (Some (p * 120 / 100)) None).
Proof.
  split.
  - intros a b Ea Eb Ha Hb.
    assert (Eo : overrides fd =
      mkTxRequest None None (Some (a * 120 / 100)) (Some (b * 120 / 100)) None None).
    { unfold overrides. rewrite Ea, Eb, !truthy_positive by assumption. cbn.
      rewrite !escalate_floor by lia. reflexivity. }
    split; [exact Eo |]. split.
    + rewrite Eo. repeat split; cbn; congruence.
    + intros to value. unfold txReq.
      rewrite Ea, Eb, !truthy_positive by assumption. cbn.
      rewrite !escalate_floor by lia. reflexivity.
  - intros p Hpair Ep Hp.
    assert (Hfalsy : truthy (fd_maxFeePerGas fd) &&
                     truthy (fd_maxPriorityFeePerGas fd) = false).
    { destruct Hpair as [H | H]; rewrite (absentOrZero_falsy _ H);
        [reflexivity | apply andb_false_r]. }
    assert (Eo : overrides fd =
      mkTxRequest None None None None (Some (p * 120 / 100)) None).
    { unfold overrides. rewrite Hfalsy, Ep, truthy_positive by assumption. cbn.
      rewrite escalate_floor by lia. reflexivity. }
    split; [exact Eo |]. split.
    + rewrite Eo. repeat split; cbn; congruence.
    + intros to value. unfold txReq.
      rewrite Hfalsy, Ep, truthy_positive by assumption. cbn.
      rewrite escalate_floor by lia. reflexivity.
Qed.

Lemma fee_offer_escalation_witness :
  overrides feeData1559 =
    mkTxRequest None None (Some 2400000000) (Some 1200000001) None None /\
  overrides feeDataLegacy =
    mkTxRequest None None None None (Some 2400000001) None /\
  overrides feeDataZeroTip =
    mkTxRequest None None None None (Some 12) None /\
  overrides (mkFeeData (Some 10) (Some 0) (Some 0)) =
    mkTxRequest None None None None (Some 12) None.
Proof.
  split; [| split; [| split]].
  - apply (proj1 (fee_offer_escalation feeData1559) 2000000000 1000000001);
      [reflexivity | reflexivity | lia | lia].
  - apply (proj2 (fee_offer_escalation feeDataLegacy) 2000000001);
      [left; left; reflexivity | reflexivity | lia].
  - apply (proj2 (fee_offer_escalation feeDataZeroTip) 10);
      [right; right; reflexivity | reflexivity | lia].
  - apply (proj2 (fee_offer_escalation (mkFeeData (Some 10) (Some 0) (Some 0))) 10);
      [left; right; reflexivity | reflexivity | lia].
Defined.

(** C2 as it is worded fails where a populated field holds zero: with a
    max fee of 14 and a priority fee of 0 the offer is not of the priority
    kind and carries no max fee; it is the flat price 10, escalated. *)
Lemma zero_tip_offer_is_flat :
  fd_maxFeePerGas feeDataZeroTip = Some 14 /\
  fd_maxPriorityFeePerGas feeDataZeroTip = Some 0 /\
  ~ (req_maxFeePerGas (overrides feeDataZeroTip) = Some (14 * 120 / 100) /\
     req_maxPriorityFeePerGas (overrides feeDataZeroTip) = Some (0 * 120 / 100) /\
     priorityStyle (overrides feeDataZeroTip)) /\
  overrides feeDataZeroTip = mkTxRequest None None None None (Some 12) None.
Proof.
  repeat split; try reflexivity.
  intros (H & _). discriminate H.
Qed.

(** ** Reading traces *)

Lemma submissions_app (t u : list Event) :
  submissions (t ++ u) = submissions t ++ submissions u.
Proof.
  unfold submissions. apply flat_map_app.
Qed.

Lemma waits_app (t u : list Event) : waits (t ++ u) = waits t ++ waits u.
Proof.
  unfold waits. apply flat_map_app.
Qed.

Lemma count_app (p : Event -> bool) (t u : list Event) :
  count p (t ++ u) = (count p t + count p u)%nat.
Proof.
  unfold count. rewrite filter_app. apply length_app.
Qed.

Ltac run :=
  unfold bind, call, emit, ret, throw, try_catch, promise_all, lift;
  cbn [world trace fst snd].

Ltac traces :=
  repeat rewrite submissions_app; cbn [submissions flat_map app];
  repeat rewrite app_nil_r.

(** ** One call of a sweep or of the submitter *)

Section Calls.

Context {W : Type} (node : Node W).

(** The native sweep after its two reads. *)
Lemma native_after_reads (to : Address) (s : State W) (b : Z)
    (fd : FeeData) (w1 w2 : W) :
  provider_getBalance node (signer_address node) (world s) = (Ok b, w1) ->
  provider_getFeeData node w1 = (Ok fd, w2) ->
  transferAllNativeMinusGas node to s =
    (if b =? 0 then ret None else sweepNative node to b fd)
      (mkState w2 (trace s ++ [EvTransferAllNative])).
Proof.
  intros Hb Hf. unfold transferAllNativeMinusGas. run.
  rewrite Hb. cbn. rewrite Hf. reflexivity.
Qed.

(** The native sweep after its estimate, failed or not. *)
Lemma native_after_estimate (to : Address) (s : State W) (b : Z)
    (fd : FeeData) (r : Res Z) (w : W) :
  provider_estimateGas node to (signer_address node) 1 (world s) = (r, w) ->
  sweepNative node to b fd s =
    let s' := mkState w (trace s ++ [EvEstimateGas]) in
    match fee (gasLimitOf r) fd with
    | Ok f => if b <=? f then (Ok None, s') else sendNative node to (b - f) fd s'
    | Throw e => (Throw e, s')
    end.
Proof.
  intros He. unfold sweepNative. run. rewrite He.
  destruct r as [g | e]; cbn [gasLimitOf];
    (destruct (fee _ fd) as [f | e']; [| reflexivity]);
    destruct (b <=? f); reflexivity.
Qed.

(** What [sendNative] leaves in the trace. *)
Lemma sendNative_trace (to : Address) (v : Z) (fd : FeeData) (s : State W) :
  trace (snd (sendNative node to v fd s)) =
    trace s ++ [EvSubmit (SubNative (txReq to v fd))].
Proof.
  unfold sendNative. run.
  destruct (signer_sendTransaction node _ (world s)) as [[tx | e] w1]; cbn;
    [| reflexivity].
  destruct (tx_wait node tx w1) as [[rc | e] w2]; cbn; [| reflexivity].
  destruct (status_is_1 rc); reflexivity.
Qed.

(** C10: with a native balance of exactly zero the sweep returns [null]
    right after its two reads: no estimate is asked for, no fee is
    computed, nothing is submitted, and the missing-price error cannot be
    raised, whatever the fee snapshot holds. *)
Theorem native_sweep_zero_balance (to : Address) (s : State W)
    (fd : FeeData) (w1 w2 : W) :
  provider_getBalance node (signer_address node) (world s) = (Ok 0, w1) ->
  provider_getFeeData node w1 = (Ok fd, w2) ->
  transferAllNativeMinusGas node to s =
    (Ok None, mkState w2 (trace s ++ [EvTransferAllNative])).
Proof.
  intros Hb Hf. now rewrite (native_after_reads to s 0 fd w1 w2).
Qed.

(** C1: for a native sweep that reads balance [b], a priced snapshot [fd]
    and works with the resource estimate [g], the reserve is [g] times the
    price per unit of the escalated offer; when [b <= reserve] the sweep
    returns [null] and submits nothing, and otherwise it submits one
    transfer, of exactly [b - reserve]. *)
Theorem native_sweep_reserve (to : Address) (s : State W) (b : Z)
    (fd : FeeData) (r : Res Z) (w1 w2 w3 : W) :
  provider_getBalance node (signer_address node) (world s) = (Ok b, w1) ->
  provider_getFeeData node w1 = (Ok fd, w2) ->
  provider_estimateGas node to (signer_address node) 1 w2 = (r, w3) ->
  0 <= b -> 0 <= gasLimitOf r -> unsignedFees fd -> priced fd = true ->
  let reserve := gasLimitOf r * pricePerUnit (overrides fd) in
  fee (gasLimitOf r) fd = Ok reserve /\
  (b <= reserve ->
     exists s', transferAllNativeMinusGas node to s = (Ok None, s') /\
                submissions (trace s') = submissions (trace s)) /\
  (reserve < b ->
     exists res s',
       transferAllNativeMinusGas node to s = (res, s') /\
       submissions (trace s') =
         submissions (trace s) ++ [SubNative (txReq to (b - reserve) fd)] /\
       req_value (txReq to (b - reserve) fd) = Some (b - reserve) /\
       pricePerUnit (txReq to (b - reserve) fd) = pricePerUnit (overrides fd)).
Proof.
  intros Hb Hf He Hb0 Hg Hu Hp reserve.
  assert (Hfee : fee (gasLimitOf r) fd = Ok reserve) by now apply fee_priced.
  assert (Hres : 0 <= reserve).
  { apply Z.mul_nonneg_nonneg; [assumption | now apply pricePerUnit_nonneg]. }
  split; [exact Hfee |].
  rewrite (native_after_reads to s b fd w1 w2 Hb Hf).
  destruct (Z.eqb_spec b 0) as [-> | Hnz].
  - split.
    + intros _. eexists. split; [reflexivity |]. cbn [trace]. now traces.
    + intros Hlt. lia.
  - rewrite (native_after_estimate to (mkState w2 _) b fd r w3 He), Hfee.
    cbn zeta.
    cbn [trace]. split.
    + intros Hle. apply Z.leb_le in Hle. rewrite Hle.
      eexists. split; [reflexivity |]. cbn [trace]. now traces.
    + intros Hlt. apply Z.leb_gt in Hlt. rewrite Hlt.
      eexists. eexists. split; [apply surjective_pairing |].
      rewrite sendNative_trace. cbn [trace]. traces.
      split; [reflexivity |].
      split; [apply txReq_value | apply txReq_pricePerUnit].
Qed.

(** The submitter from the snapshot on. *)
Lemma send_after_snapshot (txFunc : TxRequest -> M W TxResponse)
    (d : Description) (s : State W) (fd : FeeData) (w1 : W) :
  provider_getFeeData node (world s) = (Ok fd, w1) ->
  sendWithDynamicGas node txFunc d s =
    (tx <- txFunc (overrides fd) ;;
     receipt <- call (tx_wait node tx) ;;
     if status_is_1 receipt then ret receipt else throw (TxFailedError d))
      (mkState w1 (trace s)).
Proof.
  intros Hf. unfold sendWithDynamicGas. unfold bind at 1, call at 1.
  now rewrite Hf.
Qed.

Lemma status_is_1_iff (rc : Receipt) :
  status_is_1 rc = true <-> rc_status rc = Some 1.
Proof.
  unfold status_is_1. destruct (rc_status rc) as [[| [p | p |] | p] |];
    split; congruence.
Qed.



(** C9: once a transaction is submitted, the caller gets a result back
    exactly when the wait delivers a receipt whose status is 1, and the
    result is that receipt; a receipt with any other status makes the call
    raise, and so does a wait that is rejected, in the submitter of
    contract calls and in the native transfer alike. *)
Theorem settlement_status_gate :
  (forall (txFunc : TxRequest -> M W TxResponse) (d : Description)
          (s s2 : State W) (fd : FeeData) (w1 w3 : W) (tx : TxResponse)
          (r : Res Receipt),
      provider_getFeeData node (world s) = (Ok fd, w1) ->
      txFunc (overrides fd) (mkState w1 (trace s)) = (Ok tx, s2) ->
      tx_wait node tx (world s2) = (r, w3) ->
      let out := sendWithDynamicGas node txFunc d s in
      snd out = mkState w3 (trace s2) /\
      (forall rc, fst out = Ok rc <-> r = Ok rc /\ rc_status rc = Some 1) /\
      (forall rc, r = Ok rc -> rc_status rc <> Some 1 ->
                  fst out = Throw (TxFailedError d)) /\
      (forall e, r = Throw e -> fst out = Throw e)) /\
  (forall (to : Address) (v : Z) (fd : FeeData) (s : State W) (w1 w2 : W)
          (tx : TxResponse) (r : Res Receipt),
      signer_sendTransaction node (txReq to v fd) (world s) = (Ok tx, w1) ->
      tx_wait node tx w1 = (r, w2) ->
      let out := sendNative node to v fd s in
      snd out =
        mkState w2 (trace s ++ [EvSubmit (SubNative (txReq to v fd))]) /\
      (forall o, fst out = Ok o <->
                 exists rc, o = Some rc /\ r = Ok rc /\ rc_status rc = Some 1) /\
      (forall rc, r = Ok rc -> rc_status rc <> Some 1 ->
                  fst out = Throw NativeTransferFailedError) /\
      (forall e, r = Throw e -> fst out = Throw e)).
Proof.
  split.
  - intros txFunc d s s2 fd w1 w3 tx r Hf Htx Hw out. subst out.
    rewrite (send_after_snapshot txFunc d s fd w1 Hf). run.
    rewrite Htx, Hw.
    destruct r as [rc | e]; [destruct (status_is_1 rc) eqn:E |];
      cbn [fst snd ret throw];
      (split; [reflexivity |]); (split; [| split]).
    + apply status_is_1_iff in E. intros rc0. split.
      * intros [= <-]. now split.
      * intros [[= <-] _]. reflexivity.
    + apply status_is_1_iff in E. intros rc0 [= <-] Hne. contradiction.
    + intros e H. discriminate H.
    + intros rc0. split; [discriminate |].
      intros [[= <-] H]. apply status_is_1_iff in H. congruence.
    + intros rc0 _ _. reflexivity.
    + intros e H. discriminate H.
    + intros rc0. split; [discriminate |]. intros [H _]. discriminate H.
    + intros rc0 H. discriminate H.
    + intros e0 [= <-]. reflexivity.
  - intros to v fd s w1 w2 tx r Hs Hw out. subst out.
    unfold sendNative. run. rewrite Hs. cbn [world trace fst snd].
    rewrite Hw.
    destruct r as [rc | e]; [destruct (status_is_1 rc) eqn:E |];
      cbn [fst snd ret throw];
      (split; [reflexivity |]); (split; [| split]).
    + apply status_is_1_iff in E. intros o. split.
      * intros [= <-]. now exists rc.
      * intros (rc0 & -> & [= <-] & _). reflexivity.
    + apply status_is_1_iff in E. intros rc0 [= <-] Hne. contradiction.
    + intros e H. discriminate H.
    + intros o. split; [discriminate |].
      intros (rc0 & _ & [= <-] & H). apply status_is_1_iff in H. congruence.
    + intros rc0 _ _. reflexivity.
    + intros e H. discriminate H.
    + intros o. split; [discriminate |].
      intros (rc0 & _ & H & _). discriminate H.
    + intros rc0 H. discriminate H.
    + intros e0 [= <-]. reflexivity.
Qed.

End Calls.

(** C5: when the estimate for the probe transfer is rejected, the native
    sweep goes on with 21000 in its place: the run is the one of a node
    that answered 21000, and the rejection is not passed on. *)
Theorem estimate_failure_falls_back {W : Type} (node : Node W) (to : Address)
    (s : State W) (b : Z)
    (fd : FeeData) (e : Error) (w1 w2 w3 : W) :
  provider_getBalance node (signer_address node) (world s) = (Ok b, w1) ->
  provider_getFeeData node w1 = (Ok fd, w2) ->
  b <> 0 ->
  provider_estimateGas node to (signer_address node) 1 w2 = (Throw e, w3) ->
  let s3 := mkState w3 ((trace s ++ [EvTransferAllNative]) ++ [EvEstimateGas]) in
  transferAllNativeMinusGas node to s =
    transferAllNativeMinusGas (estimating 21000 node) to s /\
  transferAllNativeMinusGas node to s =
    match fee 21000 fd with
    | Ok f => if b <=? f then (Ok None, s3) else sendNative node to (b - f) fd s3
    | Throw e' => (Throw e', s3)
    end.
Proof.
  intros Hb Hf Hnz He s3.
  apply Z.eqb_neq in Hnz.
  assert (Hrun : transferAllNativeMinusGas node to s =
    match fee 21000 fd with
    | Ok f => if b <=? f then (Ok None, s3) else sendNative node to (b - f) fd s3
    | Throw e' => (Throw e', s3)
    end).
  { rewrite (native_after_reads node to s b fd w1 w2 Hb Hf), Hnz.
    now rewrite (native_after_estimate node to (mkState w2 _) b fd (Throw e) w3 He). }
  split; [| exact Hrun].
  rewrite Hrun.
  rewrite (native_after_reads (estimating 21000 node) to s b fd w1 w2 Hb Hf), Hnz.
  rewrite (native_after_estimate (estimating 21000 node) to (mkState w2 _)
             b fd (Ok 21000) w3) by (cbn; now rewrite He).
  reflexivity.
Qed.

(** ** Traces of the functions the loops call *)

Section Traces.

Context {W : Type} (node : Node W).

Variable ok : Event -> bool.

Lemma emitsOnly_ret {A} (a : A) : emitsOnly ok (@ret W A a).
Proof.
  intros s. exists []. cbn. now rewrite app_nil_r.
Qed.

Lemma emitsOnly_throw {A} (e : Error) : emitsOnly ok (@throw W A e).
Proof.
  intros s. exists []. cbn. now rewrite app_nil_r.
Qed.

Lemma emitsOnly_lift {A} (r : Res A) : emitsOnly ok (@lift W A r).
Proof.
  intros s. exists []. cbn. now rewrite app_nil_r.
Qed.

Lemma emitsOnly_call {A} (op : W -> Res A * W) : emitsOnly ok (call op).
Proof.
  intros s. exists []. unfold call. destruct (op (world s)); cbn.
  now rewrite app_nil_r.
Qed.

Lemma emitsOnly_emit (e : Event) : ok e = true -> emitsOnly ok (@emit W e).
Proof.
  intros He s. exists [e]. cbn. now rewrite He.
Qed.

Lemma emitsOnly_bind {A B} (m : M W A) (k : A -> M W B) :
  emitsOnly ok m -> (forall a, emitsOnly ok (k a)) -> emitsOnly ok (bind m k).
Proof.
  intros Hm Hk s. unfold bind.
  destruct (Hm s) as (e1 & E1 & F1).
  destruct (m s) as [[a | e] s1]; cbn in E1.
  - destruct (Hk a s1) as (e2 & E2 & F2).
    exists (e1 ++ e2). rewrite E2, E1, app_assoc, forallb_app, F1, F2.
    now split.
  - exists e1. now split.
Qed.

Lemma emitsOnly_try_catch {A} (m : M W A) (h : Error -> M W A) :
  emitsOnly ok m -> (forall e, emitsOnly ok (h e)) -> emitsOnly ok (try_catch m h).
Proof.
  intros Hm Hh s. unfold try_catch.
  destruct (Hm s) as (e1 & E1 & F1).
  destruct (m s) as [[a | e] s1]; cbn in E1.
  - exists e1. now split.
  - destruct (Hh e s1) as (e2 & E2 & F2).
    exists (e1 ++ e2). rewrite E2, E1, app_assoc, forallb_app, F1, F2.
    now split.
Qed.

Lemma emitsOnly_promise_all {A B} (first : W -> bool) (p : M W A) (q : M W B) :
  emitsOnly ok p -> emitsOnly ok q -> emitsOnly ok (promise_all first p q).
Proof.
  intros Hp Hq s. unfold promise_all.
  destruct (Hp s) as (e1 & E1 & F1).
  destruct (p s) as [ra s1]; cbn in E1.
  destruct (Hq s1) as (e2 & E2 & F2).
  destruct (q s1) as [rb s2]; cbn in E2.
  exists (e1 ++ e2). split.
  - destruct ra, rb; cbn; now rewrite E2, E1, app_assoc.
  - now rewrite forallb_app, F1, F2.
Qed.

Lemma emitsOnly_if {A} (c : bool) (m1 m2 : M W A) :
  emitsOnly ok m1 -> emitsOnly ok m2 -> emitsOnly ok (if c then m1 else m2).
Proof.
  destruct c; auto.
Qed.

(** A function that announces itself with [e] and then stays within [ok]. *)
Lemma announced {A} (e : Event) (m : M W A) :
  emitsOnly ok m ->
  forall s, exists evs,
    trace (snd ((emit e ;;; m) s)) = trace s ++ e :: evs /\
    forallb ok evs = true.
Proof.
  intros Hm s. unfold bind, emit.
  destruct (Hm (mkState (world s) (trace s ++ [e]))) as (evs & E & F).
  exists evs. rewrite E. cbn. now rewrite <- app_assoc.
Qed.

End Traces.

Create HintDb emits.
#[export] Hint Resolve emitsOnly_ret emitsOnly_throw emitsOnly_lift emitsOnly_call
  emitsOnly_bind emitsOnly_try_catch emitsOnly_promise_all emitsOnly_if : emits.

Section Loops.

Context {W : Type} (node : Node W).

Lemma sendWithDynamicGas_inner (txFunc : TxRequest -> M W TxResponse)
    (d : Description) :
  (forall ov, emitsOnly inner (txFunc ov)) ->
  emitsOnly inner (sendWithDynamicGas node txFunc d).
Proof.
  intros Htx. unfold sendWithDynamicGas.
  apply emitsOnly_bind; [apply emitsOnly_call |]. intros fd.
  apply emitsOnly_bind; [apply Htx |]. intros tx.
  apply emitsOnly_bind; [apply emitsOnly_call |]. intros rc.
  auto with emits.
Qed.

Lemma submit_inner {A} (sub : Submission) (op : W -> Res A * W) :
  emitsOnly inner (emit (EvSubmit sub) ;;; call op).
Proof.
  apply emitsOnly_bind; [now apply emitsOnly_emit | intros _; apply emitsOnly_call].
Qed.

Lemma claimTokens_trace (s : State W) :
  exists evs,
    trace (snd (claimTokens node s)) = trace s ++ EvClaimTokens :: evs /\
    forallb inner evs = true.
Proof.
  apply announced, sendWithDynamicGas_inner. intros ov. apply submit_inner.
Qed.

Lemma getTokenBalance_trace (owner token : Address) (s : State W) :
  trace (snd (getTokenBalance node owner token s)) =
    trace s ++ [EvGetTokenBalance].
Proof.
  unfold getTokenBalance. run.
  destruct (erc20_balanceOf node token owner (world s)) as [[b | e] w];
    reflexivity.
Qed.

Lemma transferAllToken_trace (to token : Address) (s : State W) :
  exists evs,
    trace (snd (transferAllToken node to token s)) =
      trace s ++ EvTransferAllToken :: evs /\
    forallb inner evs = true.
Proof.
  apply announced.
  apply emitsOnly_bind; [auto with emits |]. intros ds.
  apply emitsOnly_bind; [auto with emits |]. intros bal.
  apply emitsOnly_if; [auto with emits |].
  apply emitsOnly_bind; [auto with emits |]. intros _.
  apply emitsOnly_bind; [| auto with emits].
  apply sendWithDynamicGas_inner. intros ov. apply submit_inner.
Qed.

Lemma sendNative_inner (to : Address) (v : Z) (fd : FeeData) :
  emitsOnly inner (sendNative node to v fd).
Proof.
  unfold sendNative.
  apply emitsOnly_bind; [apply submit_inner |]. intros tx.
  apply emitsOnly_bind; [apply emitsOnly_call |]. intros rc.
  auto with emits.
Qed.

Lemma transferAllNativeMinusGas_trace (to : Address) (s : State W) :
  exists evs,
    trace (snd (transferAllNativeMinusGas node to s)) =
      trace s ++ EvTransferAllNative :: evs /\
    forallb inner evs = true.
Proof.
  apply announced.
  apply emitsOnly_bind; [auto with emits |]. intros bf.
  apply emitsOnly_if; [auto with emits |].
  unfold sweepNative.
  apply emitsOnly_bind.
  { apply emitsOnly_try_catch; [| auto with emits].
    apply emitsOnly_bind; [now apply emitsOnly_emit | auto with emits]. }
  intros g. apply emitsOnly_bind; [auto with emits |]. intros f.
  apply emitsOnly_if; [auto with emits | apply sendNative_inner].
Qed.

Lemma emitsOnly_weaken {A} (ok1 ok2 : Event -> bool) (m : M W A) :
  (forall e, ok1 e = true -> ok2 e = true) ->
  emitsOnly ok1 m -> emitsOnly ok2 m.
Proof.
  intros Himp Hm s. destruct (Hm s) as (evs & E & F).
  exists evs. split; [exact E |].
  rewrite forallb_forall in *. auto.
Qed.

Lemma inner_quiet (e : Event) : inner e = true -> quiet e = true.
Proof.
  destruct e; cbn; congruence.
Qed.

Lemma forallb_inner_quiet (evs : list Event) :
  forallb inner evs = true -> forallb quiet evs = true.
Proof.
  rewrite !forallb_forall. auto using inner_quiet.
Qed.

Lemma count_none (ok p : Event -> bool) (evs : list Event) :
  (forall e, ok e = true -> p e = false) ->
  forallb ok evs = true -> count p evs = 0%nat.
Proof.
  intros Hex. unfold count.
  induction evs as [| e evs IH]; cbn; [reflexivity |].
  intros H. apply andb_prop in H as [He Hr].
  rewrite (Hex e He). auto.
Qed.

Lemma quiet_claims (evs : list Event) :
  forallb quiet evs = true -> count isClaimTokens evs = 0%nat.
Proof.
  apply count_none. now destruct e.
Qed.

Lemma quiet_waits (evs : list Event) :
  forallb quiet evs = true -> waits evs = [].
Proof.
  induction evs as [| e evs IH]; cbn; [reflexivity |].
  intros H. apply andb_prop in H as [He Hr].
  destruct e; cbn in *; try discriminate; auto.
Qed.

Lemma wait_trace (ms : Z) (s : State W) :
  trace (snd (wait node ms s)) = trace s ++ [EvWait ms].
Proof.
  reflexivity.
Qed.

(** A sweep function, seen from the loops. *)
Lemma announced_quiet {A} (m : M W A) (e : Event) :
  quiet e = true ->
  (forall s, exists evs,
      trace (snd (m s)) = trace s ++ e :: evs /\ forallb inner evs = true) ->
  emitsOnly quiet m.
Proof.
  intros He Hm s. destruct (Hm s) as (evs & E & F).
  exists (e :: evs). split; [exact E |].
  cbn. rewrite He. now apply forallb_inner_quiet.
Qed.

Lemma guarded_sweep_quiet :
  emitsOnly quiet (try_catch (checkAndSweep node) (fun _ => ret false)).
Proof.
  apply emitsOnly_try_catch; [| auto with emits].
  unfold checkAndSweep.
  apply emitsOnly_bind.
  { intros s. exists [EvGetTokenBalance].
    now rewrite getTokenBalance_trace. }
  intros tokenBal. apply emitsOnly_if; [| auto with emits].
  apply emitsOnly_bind.
  { apply (announced_quiet _ EvTransferAllToken); [reflexivity |].
    apply transferAllToken_trace. }
  intros _. apply emitsOnly_bind; [| auto with emits].
  apply (announced_quiet _ EvTransferAllNative); [reflexivity |].
  apply transferAllNativeMinusGas_trace.
Qed.

Lemma monitorLoop_quiet (fuel : nat) (s : State W) :
  exists evs,
    trace (snd (monitorLoop node fuel s)) = trace s ++ evs /\
    forallb quiet evs = true.
Proof.
  revert s. induction fuel as [| fuel IH]; intros s; cbn [monitorLoop].
  - exists []. cbn. now rewrite app_nil_r.
  - destruct (guarded_sweep_quiet s) as (e1 & E1 & F1).
    destruct (try_catch (checkAndSweep node) (fun _ => ret false) s)
      as [[[|] | e] s1]; cbn [snd] in E1.
    + exists e1. now split.
    + destruct (IH s1) as (e2 & E2 & F2).
      exists (e1 ++ e2). rewrite E2, E1, app_assoc, forallb_app, F1, F2.
      now split.
    + destruct (IH s1) as (e2 & E2 & F2).
      exists (e1 ++ e2). rewrite E2, E1, app_assoc, forallb_app, F1, F2.
      now split.
Qed.

(** One failed attempt leaves one claim and one timer of 5000 behind. *)
Lemma retryStep_trace (s : State W) :
  exists evs,
    trace (retryStep node s) = trace s ++ evs /\
    waits evs = [5000] /\ count isClaimTokens evs = 1%nat.
Proof.
  unfold retryStep.
  destruct (claimTokens_trace s) as (e1 & E1 & F1).
  set (s1 := snd (claimTokens node s)) in *.
  pose proof (wait_trace 5000 s1) as E2.
  set (s2 := snd (wait node 5000 s1)) in *.
  destruct (guarded_sweep_quiet s2) as (e3 & E3 & F3).
  apply forallb_inner_quiet in F1.
  exists ((EvClaimTokens :: e1) ++ [EvWait 5000] ++ e3).
  split; [| split].
  - rewrite E3, E2, E1. now rewrite <- !app_assoc.
  - rewrite !waits_app.
    change (waits (EvClaimTokens :: e1)) with (waits e1).
    now rewrite (quiet_waits e1), (quiet_waits e3).
  - rewrite !count_app.
    change (count isClaimTokens (EvClaimTokens :: e1))
      with (S (count isClaimTokens e1)).
    change (count isClaimTokens [EvWait 5000]) with 0%nat.
    rewrite (quiet_claims e1), (quiet_claims e3) by assumption. reflexivity.
Qed.

Lemma claimLoop_retry (fuel : nat) (s : State W) :
  isOk (fst (claimTokens node s)) = false ->
  claimLoop node (S fuel) s = claimLoop node fuel (retryStep node s).
Proof.
  intros H. cbn [claimLoop]. unfold retryStep.
  destruct (claimTokens node s) as [[rc | e] s1]; [discriminate | reflexivity].
Qed.

Lemma claimLoop_exit (fuel : nat) (s : State W) :
  isOk (fst (claimTokens node s)) = true ->
  claimLoop node (S fuel) s = (Exited, snd (claimTokens node s)).
Proof.
  intros H. cbn [claimLoop].
  destruct (claimTokens node s) as [[rc | e] s1]; [reflexivity | discriminate].
Qed.

(** C7: when the claim attempt fails at the start, fails again on the
    second pass and succeeds on the third, the first loop ends there, the
    timers it set are two, each of 5000 ms, the claim was attempted three
    times, [main] goes on with the monitor loop, and that loop neither
    claims nor waits. *)
Theorem claim_retry_two_failures (s0 : State W) :
  let s1 := retryStep node s0 in
  let s2 := retryStep node s1 in
  let s3 := snd (claimTokens node s2) in
  isOk (fst (claimTokens node s0)) = false ->
  isOk (fst (claimTokens node s1)) = false ->
  isOk (fst (claimTokens node s2)) = true ->
  (forall fuel, (3 <= fuel)%nat -> claimLoop node fuel s0 = (Exited, s3)) /\
  (exists evs,
      trace s3 = trace s0 ++ evs /\
      waits evs = [5000; 5000] /\ count isClaimTokens evs = 3%nat) /\
  (forall fuel1 fuel2, (3 <= fuel1)%nat ->
      main node fuel1 fuel2 s0 = monitorLoop node fuel2 s3 /\
      exists evs,
        trace (snd (main node fuel1 fuel2 s0)) = trace s3 ++ evs /\
        waits evs = [] /\ count isClaimTokens evs = 0%nat).
Proof.
  intros s1 s2 s3 H0 H1 H2.
  assert (Hloop : forall fuel, (3 <= fuel)%nat ->
                    claimLoop node fuel s0 = (Exited, s3)).
  { intros fuel Hfuel.
    destruct fuel as [| [| [| fuel]]]; try lia.
    rewrite (claimLoop_retry _ s0 H0). fold s1.
    rewrite (claimLoop_retry _ s1 H1). fold s2.
    now rewrite (claimLoop_exit _ s2 H2). }
  split; [exact Hloop |]. split.
  - destruct (retryStep_trace s0) as (e0 & E0 & Wt0 & C0). fold s1 in E0.
    destruct (retryStep_trace s1) as (e1 & E1 & Wt1 & C1). fold s2 in E1.
    destruct (claimTokens_trace s2) as (e2 & E2 & F2). fold s3 in E2.
    apply forallb_inner_quiet in F2.
    exists (e0 ++ e1 ++ EvClaimTokens :: e2). split; [| split].
    + rewrite E2, E1, E0. now rewrite <- !app_assoc.
    + rewrite !waits_app, Wt0, Wt1.
      change (waits (EvClaimTokens :: e2)) with (waits e2).
      now rewrite (quiet_waits e2).
    + rewrite !count_app, C0, C1.
      change (count isClaimTokens (EvClaimTokens :: e2))
        with (S (count isClaimTokens e2)).
      now rewrite (quiet_claims e2).
  - intros fuel1 fuel2 Hfuel.
    assert (Hmain : main node fuel1 fuel2 s0 = monitorLoop node fuel2 s3).
    { unfold main. now rewrite (Hloop fuel1 Hfuel). }
    split; [exact Hmain |]. rewrite Hmain.
    destruct (monitorLoop_quiet fuel2 s3) as (evs & E & F).
    exists evs. split; [exact E |].
    split; [now apply quiet_waits | now apply quiet_claims].
Qed.

(** A poll that reads a zero token balance. *)
Lemma poll_zero (s : State W) (w : W) :
  erc20_balanceOf node TOKEN_CONTRACT (signer_address node) (world s) = (Ok 0, w) ->
  try_catch (checkAndSweep node) (fun _ => ret false) s =
    (Ok false, mkState w (trace s ++ [EvGetTokenBalance])).
Proof.
  intros Hb. unfold checkAndSweep, getTokenBalance. run. now rewrite Hb.
Qed.

(** A poll that reads a positive token balance, followed by a sweep pass
    in which neither transfer raises. *)
Lemma poll_positive (s s5 s6 : State W) (w : W) (b : Z)
    (r1 r2 : option Receipt) :
  erc20_balanceOf node TOKEN_CONTRACT (signer_address node) (world s) = (Ok b, w) ->
  0 < b ->
  transferAllToken node RECEIVER TOKEN_CONTRACT
    (mkState w (trace s ++ [EvGetTokenBalance])) = (Ok r1, s5) ->
  transferAllNativeMinusGas node RECEIVER s5 = (Ok r2, s6) ->
  try_catch (checkAndSweep node) (fun _ => ret false) s = (Ok true, s6).
Proof.
  intros Hb Hpos Ht Hn. unfold checkAndSweep, getTokenBalance. run.
  rewrite Hb.
  destruct (Z.eqb_spec b 0) as [E | _]; [lia |].
  destruct (Z.ltb_spec 0 b) as [_ | E]; [| lia].
  cbn [negb andb]. now rewrite Ht, Hn.
Qed.

(** C8, as amended: when the token balance reads 0 on the first three
    polls and 42 on the fourth, and the sweep pass that follows raises no
    error (the token sweep and the native sweep both return), the monitor
    loop ends after exactly four polls and exactly one sweep pass, the
    token transfer before the native one, whether the native sweep
    returned a receipt or [null]. *)
Theorem monitor_sweeps_once (s0 s5 s6 : State W) (w1 w2 w3 w4 : W)
    (r1 r2 : option Receipt) :
  let owner := signer_address node in
  let polled := [EvGetTokenBalance; EvGetTokenBalance;
                 EvGetTokenBalance; EvGetTokenBalance] in
  erc20_balanceOf node TOKEN_CONTRACT owner (world s0) = (Ok 0, w1) ->
  erc20_balanceOf node TOKEN_CONTRACT owner w1 = (Ok 0, w2) ->
  erc20_balanceOf node TOKEN_CONTRACT owner w2 = (Ok 0, w3) ->
  erc20_balanceOf node TOKEN_CONTRACT owner w3 = (Ok 42, w4) ->
  transferAllToken node RECEIVER TOKEN_CONTRACT
    (mkState w4 (trace s0 ++ polled)) = (Ok r1, s5) ->
  transferAllNativeMinusGas node RECEIVER s5 = (Ok r2, s6) ->
  (forall fuel, (4 <= fuel)%nat -> monitorLoop node fuel s0 = (Exited, s6)) /\
  exists e1 e2,
    let evs := polled ++ EvTransferAllToken :: e1 ++ EvTransferAllNative :: e2 in
    trace s6 = trace s0 ++ evs /\
    forallb inner e1 = true /\ forallb inner e2 = true /\
    count isPoll evs = 4%nat /\
    count isTokenSweep evs = 1%nat /\
    count isNativeSweep evs = 1%nat.
Proof.
  intros owner polled B1 B2 B3 B4 Ht Hn. split.
  - intros fuel Hfuel.
    destruct fuel as [| [| [| [| fuel]]]]; try lia.
    cbn [monitorLoop].
    rewrite (poll_zero s0 w1 B1).
    rewrite (poll_zero (mkState w1 _) w2 B2).
    rewrite (poll_zero (mkState w2 _) w3 B3).
    cbn [trace].
    rewrite (poll_positive (mkState w3 _) s5 s6 w4 42 r1 r2 B4); [reflexivity | lia | | exact Hn].
    cbn [trace]. rewrite <- Ht. f_equal. f_equal.
    now rewrite <- !app_assoc.
  - destruct (transferAllToken_trace RECEIVER TOKEN_CONTRACT
                (mkState w4 (trace s0 ++ polled))) as (e1 & E1 & F1).
    rewrite Ht in E1. cbn [snd trace] in E1.
    destruct (transferAllNativeMinusGas_trace RECEIVER s5) as (e2 & E2 & F2).
    rewrite Hn in E2. cbn [snd] in E2.
    exists e1, e2. cbn zeta.
    split; [| split; [exact F1 | split; [exact F2 |]]].
    + rewrite E2, E1. rewrite <- !app_assoc. reflexivity.
    + change (EvTransferAllToken :: e1 ++ EvTransferAllNative :: e2)
        with ([EvTransferAllToken] ++ e1 ++ [EvTransferAllNative] ++ e2).
      rewrite !count_app.
      rewrite (count_none inner isPoll e1), (count_none inner isPoll e2),
        (count_none inner isTokenSweep e1), (count_none inner isTokenSweep e2),
        (count_none inner isNativeSweep e1), (count_none inner isNativeSweep e2);
        try assumption; try (intros []; cbn; congruence).
      repeat split.
Qed.

End Loops.

(** ** The script on scripted nodes *)

Lemma native_sweep_zero_balance_witness :
  transferAllNativeMinusGas (scripted (holding 0 (Some 1) feeDataNone)) RECEIVER start =
    (Ok None, mkState (mkCounters 0 0) [EvTransferAllNative]).
Proof.
  apply (native_sweep_zero_balance (scripted (holding 0 (Some 1) feeDataNone))
           RECEIVER start feeDataNone (mkCounters 0 0) (mkCounters 0 0));
    reflexivity.
Defined.

Lemma native_sweep_reserve_witness :
  fee 21000 feeDataFlat = Ok 42000000000000 /\
  exists res s',
    transferAllNativeMinusGas (scripted (settling feeDataFlat)) RECEIVER start = (res, s') /\
    submissions (trace s') =
      [SubNative (mkTxRequest (Some RECEIVER) (Some 999958000000000000)
                    None None (Some 2000000000) None)].
Proof.
  destruct (native_sweep_reserve (scripted (settling feeDataFlat)) RECEIVER start
              1000000000000000000 feeDataFlat (Ok 21000)
              (mkCounters 0 0) (mkCounters 0 0) (mkCounters 0 0))
    as (Hfee & _ & Hplan);
    try reflexivity; try (cbn; lia); try (repeat split; cbn; lia).
  split; [exact Hfee |].
  destruct Hplan as (res & s' & Hrun & Hsub & _); [vm_compute; reflexivity |].
  exists res, s'. split; [exact Hrun | exact Hsub].
Defined.

Lemma estimate_failure_falls_back_witness :
  transferAllNativeMinusGas (scripted (demoScript (Ok feeData1559))) RECEIVER start =
  transferAllNativeMinusGas
    (estimating 21000 (scripted (demoScript (Ok feeData1559)))) RECEIVER start.
Proof.
  apply (estimate_failure_falls_back (scripted (demoScript (Ok feeData1559)))
           RECEIVER start 1000000000000000000 feeData1559 (NodeError 2)
           (mkCounters 0 0) (mkCounters 0 0) (mkCounters 0 0));
    try reflexivity; lia.
Defined.



Lemma settlement_status_gate_witness :
  fst (sendWithDynamicGas (scripted (settling feeData1559))
         (fun ov => call (claim_claim (scripted (settling feeData1559)) ov))
         DescClaim start) =
    Ok (mkReceipt 0 (Some 1)) /\
  fst (sendWithDynamicGas (scripted (holding 5 (Some 0) feeData1559))
         (fun ov => call (claim_claim (scripted (holding 5 (Some 0) feeData1559)) ov))
         DescClaim start) =
    Throw (TxFailedError DescClaim) /\
  fst (sendWithDynamicGas (unsettled (scripted (settling feeData1559)))
         (fun ov => call (claim_claim (unsettled (scripted (settling feeData1559))) ov))
         DescClaim start) =
    Throw (NodeError 5) /\
  fst (sendNative (scripted (holding 5 (Some 0) feeData1559))
         RECEIVER 1 feeData1559 start) =
    Throw NativeTransferFailedError /\
  fst (sendNative (unsettled (scripted (settling feeData1559)))
         RECEIVER 1 feeData1559 start) =
    Throw (NodeError 5).
Proof.
  split; [| split; [| split; [| split]]].
  - destruct (proj1 (settlement_status_gate (scripted (settling feeData1559)))
             (fun ov => call (claim_claim (scripted (settling feeData1559)) ov))
             DescClaim start (mkState (mkCounters 1 0) [])
             feeData1559 (mkCounters 0 0) (mkCounters 1 0)
             (mkTxResponse 0) (Ok (mkReceipt 0 (Some 1)))
             eq_refl eq_refl eq_refl) as (_ & Hiff & _ & _).
    apply Hiff. split; reflexivity.
  - destruct (proj1 (settlement_status_gate
                       (scripted (holding 5 (Some 0) feeData1559)))
             (fun ov => call (claim_claim
                                (scripted (holding 5 (Some 0) feeData1559)) ov))
             DescClaim start (mkState (mkCounters 1 0) [])
             feeData1559 (mkCounters 0 0) (mkCounters 1 0)
             (mkTxResponse 0) (Ok (mkReceipt 0 (Some 0)))
             eq_refl eq_refl eq_refl) as (_ & _ & Hbad & _).
    apply (Hbad (mkReceipt 0 (Some 0))); [reflexivity | discriminate].
  - destruct (proj1 (settlement_status_gate
                       (unsettled (scripted (settling feeData1559))))
             (fun ov => call (claim_claim
                                (unsettled (scripted (settling feeData1559))) ov))
             DescClaim start (mkState (mkCounters 1 0) [])
             feeData1559 (mkCounters 0 0) (mkCounters 1 0)
             (mkTxResponse 0) (Throw (NodeError 5))
             eq_refl eq_refl eq_refl) as (_ & _ & _ & Hrej).
    apply Hrej. reflexivity.
  - destruct (proj2 (settlement_status_gate
                       (scripted (holding 5 (Some 0) feeData1559)))
             RECEIVER 1 feeData1559 start (mkCounters 0 0) (mkCounters 0 0)
             (mkTxResponse 1000) (Ok (mkReceipt 1000 (Some 0)))
             eq_refl eq_refl) as (_ & _ & Hbad & _).
    apply (Hbad (mkReceipt 1000 (Some 0))); [reflexivity | discriminate].
  - destruct (proj2 (settlement_status_gate
                       (unsettled (scripted (settling feeData1559))))
             RECEIVER 1 feeData1559 start (mkCounters 0 0) (mkCounters 0 0)
             (mkTxResponse 1000) (Throw (NodeError 5))
             eq_refl eq_refl) as (_ & _ & _ & Hrej).
    apply Hrej. reflexivity.
Defined.

Lemma claim_retry_two_failures_witness :
  claimLoop (scripted (demoScript (Ok feeData1559))) 3 start =
    (Exited, snd (claimLoop (scripted (demoScript (Ok feeData1559))) 3 start)) /\
  waits (trace (snd (claimLoop (scripted (demoScript (Ok feeData1559))) 3 start))) =
    [5000; 5000].
Proof.
  destruct (claim_retry_two_failures (scripted (demoScript (Ok feeData1559))) start)
    as (Hloop & _ & _); try reflexivity.
  rewrite (Hloop 3%nat) by lia. split; reflexivity.
Defined.

Lemma monitor_sweeps_once_witness :
  fst (monitorLoop (scripted (demoScript (Ok feeData1559))) 4 start) = Exited /\
  count isPoll
    (trace (snd (monitorLoop (scripted (demoScript (Ok feeData1559))) 4 start))) = 4%nat.
Proof.
  destruct (monitor_sweeps_once (scripted (demoScript (Ok feeData1559))) start
              (snd (transferAllToken (scripted (demoScript (Ok feeData1559)))
                      RECEIVER TOKEN_CONTRACT
                      (mkState (mkCounters 0 4)
                         [EvGetTokenBalance; EvGetTokenBalance;
                          EvGetTokenBalance; EvGetTokenBalance])))
              (snd (monitorLoop (scripted (demoScript (Ok feeData1559))) 4 start))
              (mkCounters 0 1) (mkCounters 0 2) (mkCounters 0 3) (mkCounters 0 4)
              (Some (mkReceipt 1000 (Some 1))) (Some (mkReceipt 1000 (Some 1))))
    as (Hloop & _); try reflexivity.
  rewrite (Hloop 4%nat) by lia. split; reflexivity.
Defined.

(** C8 as it is worded fails when the sweep pass raises: against a balance
    source that answers 0, 0, 0 and then 42, and a fee snapshot with no
    fee field, the native sweep of the fourth pass raises, the error is
    swallowed and the loop polls again; after ten passes it has polled ten
    times, started seven token sweeps and is still running. *)
Lemma unpriced_monitor_keeps_polling :
  let node := scripted (demoScript (Ok feeDataNone)) in
  map (fun k => fst (erc20_balanceOf node TOKEN_CONTRACT (signer_address node)
                       (mkCounters 0 k)))
      [0; 1; 2; 3]%nat = [Ok 0; Ok 0; Ok 0; Ok 42] /\
  fst (monitorLoop node 10 start) = OutOfFuel /\
  count isPoll (trace (snd (monitorLoop node 10 start))) = 10%nat /\
  count isTokenSweep (trace (snd (monitorLoop node 10 start))) = 7%nat /\
  count isNativeSweep (trace (snd (monitorLoop node 10 start))) = 7%nat.
Proof.
  repeat split.
Qed.

(** ** Where the two submitting paths part ways *)

(** C3, on the code: a snapshot with no fee field at all stops the native
    sweep with the missing-price error, but the submitter of contract calls
    raises nothing: the claim and the token transfer are handed to the
    signer with empty overrides, and settle. *)
Theorem unpriced_snapshot_is_submitted :
  let node := scripted (settling feeDataNone) in
  priced feeDataNone = false /\
  claimTokens node start =
    (Ok (mkReceipt 0 (Some 1)),
     mkState (mkCounters 1 0) [EvClaimTokens; EvSubmit (SubClaim emptyRequest)]) /\
  transferAllToken node RECEIVER TOKEN_CONTRACT start =
    (Ok (Some (mkReceipt 1000 (Some 1))),
     mkState (mkCounters 0 1)
       [EvTransferAllToken;
        EvSubmit (SubTransfer TOKEN_CONTRACT RECEIVER 42 emptyRequest)]) /\
  transferAllNativeMinusGas node RECEIVER start =
    (Throw NoGasPriceError,
     mkState (mkCounters 0 0) [EvTransferAllNative; EvEstimateGas]).
Proof.
  repeat split.
Qed.

(** C6, on the code: with a variable-fee snapshot both paths put the two
    escalated fee fields on what they submit, but only the native transfer
    sets [type] to 2; the overrides of a contract call carry no [type]. *)
Theorem contract_call_offer_has_no_type :
  let node := scripted (settling feeData1559) in
  submissions (trace (snd (claimTokens node start))) =
    [SubClaim (mkTxRequest None None (Some 2400000000) (Some 1200000001) None None)] /\
  submissions (trace (snd (transferAllToken node RECEIVER TOKEN_CONTRACT start))) =
    [SubTransfer TOKEN_CONTRACT RECEIVER 42
       (mkTxRequest None None (Some 2400000000) (Some 1200000001) None None)] /\
  submissions (trace (snd (transferAllNativeMinusGas node RECEIVER start))) =
    [SubNative (mkTxRequest (Some RECEIVER) (Some 999949600000000000)
                  (Some 2400000000) (Some 1200000001) None (Some 2))] /\
  priorityStyle (overrides feeData1559) /\
  req_type (overrides feeData1559) = None.
Proof.
  repeat split; discriminate.
Qed.

(** * Further properties of the script *)

(** ** The offer, on every snapshot *)

Lemma offer_cases (fd : FeeData) :
  (truthy (fd_maxFeePerGas fd) && truthy (fd_maxPriorityFeePerGas fd) = true) \/
  (truthy (fd_maxFeePerGas fd) && truthy (fd_maxPriorityFeePerGas fd) = false /\
   truthy (fd_gasPrice fd) = true) \/
  priced fd = false.
Proof.
  unfold priced.
  destruct (truthy (fd_maxFeePerGas fd) && truthy (fd_maxPriorityFeePerGas fd));
    [now left |].
  destruct (truthy (fd_gasPrice fd)); [right; left | right; right]; auto.
Qed.

(** X1: whatever the snapshot holds, the overrides of a contract call set
    no recipient, value or type, and are of exactly one of three shapes:
    empty (when the snapshot is not priced), the two max-fee fields without
    a flat price, or a flat price without the max-fee fields. *)
Theorem overrides_shape (fd : FeeData) :
  req_to (overrides fd) = None /\
  req_value (overrides fd) = None /\
  req_type (overrides fd) = None /\
  ((priced fd = false /\ overrides fd = emptyRequest) \/
   (priced fd = true /\ priorityStyle (overrides fd)) \/
   (priced fd = true /\ flatStyle (overrides fd))).
Proof.
  destruct (offer_cases fd) as [H | [[H G] | H]].
  - unfold overrides, priced. rewrite H. cbn.
    repeat split; try reflexivity.
    right; left. repeat split; cbn; congruence.
  - unfold overrides, priced. rewrite H, G. cbn.
    repeat split; try reflexivity.
    right; right. repeat split; cbn; congruence.
  - rewrite (overrides_unpriced fd H). cbn.
    repeat split; try reflexivity. left. now split.
Qed.

(** X2: the request of a native transfer carries, for every snapshot, the
    same three fee fields as the overrides of a contract call; its [type]
    is 2 exactly when it holds the two max-fee fields, and absent
    otherwise. *)
Theorem txReq_carries_overrides (to : Address) (v : Z) (fd : FeeData) :
  req_maxFeePerGas (txReq to v fd) = req_maxFeePerGas (overrides fd) /\
  req_maxPriorityFeePerGas (txReq to v fd) =
    req_maxPriorityFeePerGas (overrides fd) /\
  req_gasPrice (txReq to v fd) = req_gasPrice (overrides fd) /\
  (req_type (txReq to v fd) = Some 2 <-> priorityStyle (txReq to v fd)) /\
  (req_type (txReq to v fd) = None <-> ~ priorityStyle (txReq to v fd)).
Proof.
  unfold txReq, overrides, priorityStyle.
  destruct (truthy (fd_maxFeePerGas fd) && truthy (fd_maxPriorityFeePerGas fd)).
  - cbn. repeat split; cbn; try congruence.
    intros H. exfalso. apply H. repeat split; cbn; congruence.
  - destruct (truthy (fd_gasPrice fd)); cbn; repeat split; cbn; try congruence;
      try (intros (H & _); cbn in H; congruence);
      intros _ (H & _); cbn in H; congruence.
Qed.

Lemma escalate_bounds (a : Z) :
  0 <= a ->
  a <= Z.quot (a * 120) 100 /\ (a < Z.quot (a * 120) 100 <-> 5 <= a).
Proof.
  intros Ha. rewrite escalate_floor by assumption.
  pose proof (Z.div_mod (a * 120) 100 ltac:(lia)) as E.
  pose proof (Z.mod_pos_bound (a * 120) 100 ltac:(lia)) as B.
  lia.
Qed.

(** X3: with unsigned fee fields, no field of the offer is below the
    snapshot field it comes from, and it is strictly above it exactly when
    that field is at least 5: below 5 the escalation by 120/100 truncates
    back to the snapshot value. *)
Theorem escalation_outbids (fd : FeeData) :
  unsignedFees fd ->
  (forall a m, fd_maxFeePerGas fd = Some a ->
               req_maxFeePerGas (overrides fd) = Some m ->
               a <= m /\ (a < m <-> 5 <= a)) /\
  (forall a m, fd_maxPriorityFeePerGas fd = Some a ->
               req_maxPriorityFeePerGas (overrides fd) = Some m ->
               a <= m /\ (a < m <-> 5 <= a)) /\
  (forall a m, fd_gasPrice fd = Some a ->
               req_gasPrice (overrides fd) = Some m ->
               a <= m /\ (a < m <-> 5 <= a)).
Proof.
  intros (Hg & Hm & Hp). unfold overrides.
  destruct (truthy (fd_maxFeePerGas fd) && truthy (fd_maxPriorityFeePerGas fd)).
  - (split; [| split]); intros a m Ea Em; cbn in Em; try discriminate;
      rewrite Ea in *; cbn in *; injection Em as <-;
      now apply escalate_bounds.
  - destruct (truthy (fd_gasPrice fd));
      (split; [| split]); intros a m Ea Em; cbn in Em; try discriminate;
      rewrite Ea in *; cbn in *; injection Em as <-;
      now apply escalate_bounds.
Qed.

Lemma escalation_outbids_witness :
  (2000000000 <= 2400000000 /\ (2000000000 < 2400000000 <-> 5 <= 2000000000)) /\
  (4 <= 4 /\ (4 < 4 <-> 5 <= 4)).
Proof.
  split.
  - apply (proj1 (escalation_outbids feeData1559 ltac:(repeat split; cbn; lia)));
      reflexivity.
  - apply (proj2 (proj2 (escalation_outbids (mkFeeData (Some 4) None None)
                           ltac:(repeat split; cbn; lia))));
      reflexivity.
Defined.

(** ** What a call submits *)

Section Submissions.

Context {W : Type} (node : Node W).

(** X4: a claim attempt whose fee snapshot cannot be read raises the
    node's error without submitting; one whose snapshot is read submits
    exactly one claim, with the overrides of that snapshot. *)
Theorem claimTokens_submission (s : State W) :
  (forall e w1,
      provider_getFeeData node (world s) = (Throw e, w1) ->
      claimTokens node s =
        (Throw e, mkState w1 (trace s ++ [EvClaimTokens]))) /\
  (forall fd w1,
      provider_getFeeData node (world s) = (Ok fd, w1) ->
      submissions (trace (snd (claimTokens node s))) =
        submissions (trace s) ++ [SubClaim (overrides fd)]).
Proof.
  split.
  - intros e w1 Hf. unfold claimTokens, sendWithDynamicGas. run.
    now rewrite Hf.
  - intros fd w1 Hf. unfold claimTokens. unfold bind at 1, emit at 1.
    rewrite (send_after_snapshot node _ _ (mkState (world s) _) fd w1 Hf).
    run.
    destruct (claim_claim node (overrides fd) w1) as [[tx | e] w2]; cbn;
      [| now traces].
    destruct (tx_wait node tx w2) as [[rc | e] w3]; cbn; [| now traces].
    destruct (status_is_1 rc); cbn; now traces.
Qed.

(** X5: whatever the node answers, a native sweep submits nothing or one
    transfer, to the recipient it was given and of a strictly positive
    value. *)
Theorem native_transfer_positive (to : Address) (s : State W) :
  exists l,
    submissions (trace (snd (transferAllNativeMinusGas node to s))) =
      submissions (trace s) ++ l /\
    (l = [] \/
     exists req v, l = [SubNative req] /\
                   req_to req = Some to /\ req_value req = Some v /\ 0 < v).
Proof.
  destruct (provider_getBalance node (signer_address node) (world s))
    as [rb w1] eqn:Hb.
  destruct (provider_getFeeData node w1) as [rf w2] eqn:Hf.
  destruct rb as [b | e], rf as [fd | e'].
  2, 3, 4:
    exists []; unfold transferAllNativeMinusGas; run; rewrite Hb; cbn;
    rewrite Hf; cbn; (split; [now traces | now left]).
  rewrite (native_after_reads node to s b fd w1 w2 Hb Hf).
  destruct (Z.eqb_spec b 0) as [E | Hnz].
  { exists []. cbn. split; [now traces | now left]. }
  destruct (provider_estimateGas node to (signer_address node) 1 w2)
    as [r w3] eqn:He.
  rewrite (native_after_estimate node to (mkState w2 _) b fd r w3 He).
  cbn zeta. cbn [trace].
  destruct (fee (gasLimitOf r) fd) as [f | e].
  - destruct (Z.leb_spec b f) as [Hle | Hlt].
    + exists []. cbn. split; [now traces | now left].
    + exists [SubNative (txReq to (b - f) fd)].
      rewrite sendNative_trace. cbn [trace]. split; [now traces |].
      right. exists (txReq to (b - f) fd), (b - f).
      destruct (txReq_value to (b - f) fd) as [Hv Ht].
      repeat split; [exact Ht | exact Hv | lia].
  - exists []. cbn. split; [now traces | now left].
Qed.

(** What the submitter of contract calls hands to the signer. *)
Lemma send_submissions {A} (sub : TxRequest -> Submission)
    (op : TxRequest -> W -> Res TxResponse * W) (d : Description)
    (k : Receipt -> M W A) (s : State W) :
  (forall rc, emitsOnly (fun _ => false) (k rc)) ->
  submissions
    (trace (snd ((receipt <- sendWithDynamicGas node
                    (fun ov => emit (EvSubmit (sub ov)) ;;; call (op ov)) d ;;
                  k receipt) s))) =
  submissions (trace s) ++
    match fst (provider_getFeeData node (world s)) with
    | Ok fd => [sub (overrides fd)]
    | Throw _ => []
    end.
Proof.
  intros Hk. unfold sendWithDynamicGas. run.
  destruct (provider_getFeeData node (world s)) as [[fd | e] w1]; cbn;
    [| now traces].
  destruct (op (overrides fd) w1) as [[tx | e] w2]; cbn; [| now traces].
  destruct (tx_wait node tx w2) as [[rc | e] w3]; cbn; [| now traces].
  destruct (status_is_1 rc); cbn; [| now traces].
  destruct (Hk rc (mkState w3 (trace s ++ [EvSubmit (sub (overrides fd))])))
    as (evs & E & F).
  destruct evs as [| ev evs]; [| discriminate].
  rewrite E. cbn [trace]. now traces.
Qed.

(** X6: whatever the node answers, a token sweep submits nothing or one
    transfer, of the token and to the recipient it was given, and of a
    non-zero amount. *)
Theorem token_transfer_nonzero (to token : Address) (s : State W) :
  exists l,
    submissions (trace (snd (transferAllToken node to token s))) =
      submissions (trace s) ++ l /\
    (l = [] \/
     exists b ov, l = [SubTransfer token to b ov] /\ b <> 0).
Proof.
  unfold transferAllToken.
  unfold bind at 1, emit at 1. unfold bind at 1, promise_all, call at 1 2.
  cbn [world trace].
  destruct (erc20_decimals node token (world s)) as [rd w1].
  cbn [world trace fst snd].
  destruct (erc20_symbol node token w1) as [rs w2].
  cbn [world trace fst snd].
  destruct rd as [dec | e], rs as [sym | e'];
    try (exists []; cbn [snd trace]; split; [now traces | now left]).
  unfold bind at 1, call at 1. cbn [world trace fst snd].
  destruct (erc20_balanceOf node token (signer_address node) w2)
    as [[b | e] w3]; cbn [world trace fst snd];
    [| exists []; split; [now traces | now left]].
  destruct (Z.eqb_spec b 0) as [E | Hnz];
    [exists []; cbn [ret snd trace]; split; [now traces | now left] |].
  unfold bind at 1, lift at 1.
  destruct (ethers_formatUnits node b dec) as [str | e];
    [| exists []; cbn [snd trace]; split; [now traces | now left]].
  rewrite (send_submissions (SubTransfer token to b)
             (erc20_transfer node token to b) (DescTransfer sym)
             (fun receipt => ret (Some receipt)))
    by (intros rc; apply emitsOnly_ret).
  cbn [world trace]. rewrite submissions_app. cbn [submissions flat_map app].
  rewrite app_nil_r.
  destruct (fst (provider_getFeeData node w3)) as [fd | e].
  - exists [SubTransfer token to b (overrides fd)]. split; [reflexivity |].
    right. now exists b, (overrides fd).
  - exists []. split; [reflexivity | now left].
Qed.

(** X7: when the balance read or the fee read of a native sweep is
    rejected, the sweep raises right after the two reads: no estimate is
    asked for and nothing is submitted. *)
Theorem native_read_failure (to : Address) (s : State W)
    (rb : Res Z) (rf : Res FeeData) (w1 w2 : W) :
  provider_getBalance node (signer_address node) (world s) = (rb, w1) ->
  provider_getFeeData node w1 = (rf, w2) ->
  isOk rb && isOk rf = false ->
  exists e,
    transferAllNativeMinusGas node to s =
      (Throw e, mkState w2 (trace s ++ [EvTransferAllNative])).
Proof.
  intros Hb Hf Hbad. unfold transferAllNativeMinusGas. run.
  rewrite Hb. cbn. rewrite Hf. cbn.
  destruct rb as [b | e], rf as [fd | e']; try discriminate; eexists;
    reflexivity.
Qed.

(** X8: a native sweep that reads a non-zero balance and a snapshot that
    is not priced raises the missing-price error and submits nothing,
    whatever the estimate was. *)
Theorem native_unpriced_raises (to : Address) (s : State W) (b : Z)
    (fd : FeeData) (w1 w2 : W) :
  provider_getBalance node (signer_address node) (world s) = (Ok b, w1) ->
  provider_getFeeData node w1 = (Ok fd, w2) ->
  b <> 0 -> priced fd = false ->
  exists s',
    transferAllNativeMinusGas node to s = (Throw NoGasPriceError, s') /\
    submissions (trace s') = submissions (trace s).
Proof.
  intros Hb Hf Hnz Hp.
  rewrite (native_after_reads node to s b fd w1 w2 Hb Hf).
  apply Z.eqb_neq in Hnz. rewrite Hnz.
  destruct (provider_estimateGas node to (signer_address node) 1 w2)
    as [r w3] eqn:He.
  rewrite (native_after_estimate node to (mkState w2 _) b fd r w3 He).
  rewrite (fee_unpriced _ fd Hp). cbn zeta.
  eexists. split; [reflexivity |]. cbn [trace]. now traces.
Qed.

End Submissions.

Lemma claimTokens_submission_witness :
  claimTokens (scripted (demoScript (Throw (NodeError 4)))) start =
    (Throw (NodeError 4), mkState (mkCounters 0 0) [EvClaimTokens]) /\
  submissions (trace (snd (claimTokens (scripted (settling feeDataLegacy)) start))) =
    [SubClaim (overrides feeDataLegacy)].
Proof.
  split.
  - apply (proj1 (claimTokens_submission
                    (scripted (demoScript (Throw (NodeError 4)))) start)).
    reflexivity.
  - apply (proj2 (claimTokens_submission (scripted (settling feeDataLegacy)) start)
             feeDataLegacy (mkCounters 0 0)).
    reflexivity.
Defined.

Lemma native_read_failure_witness :
  exists e,
    transferAllNativeMinusGas (scripted unreadableScript) RECEIVER start =
      (Throw e, mkState (mkCounters 0 0) [EvTransferAllNative]).
Proof.
  apply (native_read_failure (scripted unreadableScript) RECEIVER start
           (Throw (NodeError 3)) (Ok feeData1559) (mkCounters 0 0) (mkCounters 0 0));
    reflexivity.
Defined.

Lemma native_unpriced_raises_witness :
  exists s',
    transferAllNativeMinusGas (scripted (settling feeDataNone)) RECEIVER start =
      (Throw NoGasPriceError, s') /\
    submissions (trace s') = submissions (trace start).
Proof.
  apply (native_unpriced_raises (scripted (settling feeDataNone)) RECEIVER start
           1000000000000000000 feeDataNone (mkCounters 0 0) (mkCounters 0 0));
    try reflexivity; lia.
Defined.

(** ** The two loops, on every node *)

Section LoopFacts.

Context {W : Type} (node : Node W).

(** One pass over the guarded sweep never raises, and appends a [Pass]. *)
Lemma guarded_pass (s : State W) :
  exists done evs s',
    try_catch (checkAndSweep node) (fun _ => ret false) s = (Ok done, s') /\
    trace s' = trace s ++ evs /\ Pass done evs.
Proof.
  unfold try_catch, checkAndSweep, getTokenBalance.
  unfold bind at 1 2, emit at 1, call at 1. cbn [world trace fst snd].
  destruct (erc20_balanceOf node TOKEN_CONTRACT (signer_address node) (world s))
    as [[b | e] w1]; cbn [world trace fst snd];
    [| exists false, [EvGetTokenBalance]; eexists;
       repeat split; constructor].
  destruct (negb (b =? 0) && (0 <? b));
    [| exists false, [EvGetTokenBalance]; eexists;
       repeat split; constructor].
  unfold bind at 1.
  set (s1 := mkState w1 (trace s ++ [EvGetTokenBalance])).
  destruct (transferAllToken_trace node RECEIVER TOKEN_CONTRACT s1)
    as (e1 & E1 & F1).
  destruct (transferAllToken node RECEIVER TOKEN_CONTRACT s1)
    as [[r1 | e] s5]; cbn [snd] in E1.
  - unfold bind at 1.
    destruct (transferAllNativeMinusGas_trace node RECEIVER s5)
      as (e2 & E2 & F2).
    destruct (transferAllNativeMinusGas node RECEIVER s5)
      as [[r2 | e] s6]; cbn [snd] in E2.
    + exists true,
        (EvGetTokenBalance :: EvTransferAllToken :: e1 ++
         EvTransferAllNative :: e2), s6.
      repeat split; [| now constructor].
      rewrite E2, E1. unfold s1. cbn [trace]. now rewrite <- !app_assoc.
    + exists false,
        (EvGetTokenBalance :: EvTransferAllToken :: e1 ++
         EvTransferAllNative :: e2), s6.
      repeat split; [| now constructor].
      rewrite E2, E1. unfold s1. cbn [trace]. now rewrite <- !app_assoc.
  - exists false, (EvGetTokenBalance :: EvTransferAllToken :: e1), s5.
    repeat split; [| now constructor].
    rewrite E1. unfold s1. cbn [trace]. now rewrite <- !app_assoc.
Qed.

Lemma afterFailures_succ (n : nat) (s : State W) :
  afterFailures node (S n) s = afterFailures node n (retryStep node s).
Proof.
  reflexivity.
Qed.

(** X9: when the first [n] claim attempts fail and the next one succeeds,
    the first loop ends with that attempt, having set exactly [n] timers,
    each of 5000 ms, and attempted the claim [n + 1] times. *)
Theorem claim_retry_n_failures (n : nat) (s : State W) :
  (forall k, (k < n)%nat ->
             isOk (fst (claimTokens node (afterFailures node k s))) = false) ->
  isOk (fst (claimTokens node (afterFailures node n s))) = true ->
  (forall fuel, (n < fuel)%nat ->
     claimLoop node fuel s =
       (Exited, snd (claimTokens node (afterFailures node n s)))) /\
  exists evs,
    trace (snd (claimTokens node (afterFailures node n s))) = trace s ++ evs /\
    waits evs = repeat 5000 n /\
    count isClaimTokens evs = S n.
Proof.
  revert s. induction n as [| n IH]; intros s Hfail Hok.
  - split.
    + intros fuel Hfuel. destruct fuel as [| fuel]; [lia |].
      now apply claimLoop_exit.
    + cbn [afterFailures] in *.
      destruct (claimTokens_trace node s) as (e & E & F).
      apply forallb_inner_quiet in F.
      exists (EvClaimTokens :: e). split; [exact E |]. split.
      * change (waits (EvClaimTokens :: e)) with (waits e).
        now apply quiet_waits.
      * change (count isClaimTokens (EvClaimTokens :: e))
          with (S (count isClaimTokens e)).
        now rewrite quiet_claims.
  - assert (H0 : isOk (fst (claimTokens node s)) = false)
      by (apply (Hfail 0%nat); lia).
    destruct (IH (retryStep node s)) as (Hloop & evs & E & Wt & Ct).
    { intros k Hk. rewrite <- afterFailures_succ. apply Hfail. lia. }
    { now rewrite <- afterFailures_succ. }
    rewrite afterFailures_succ. split.
    + intros fuel Hfuel. destruct fuel as [| fuel]; [lia |].
      rewrite (claimLoop_retry node fuel s H0). apply Hloop. lia.
    + destruct (retryStep_trace node s) as (e0 & E0 & W0 & C0).
      exists (e0 ++ evs). split; [| split].
      * rewrite E, E0. now rewrite app_assoc.
      * rewrite waits_app, W0, Wt. reflexivity.
      * rewrite count_app, C0, Ct. reflexivity.
Qed.

(** X10: in every run of the first loop, for any fuel, each timer is of
    5000 ms, and the claim was attempted once per timer, plus once more
    when the loop was left; a run that was not left used every pass. *)
Theorem claimLoop_waits (fuel : nat) (s : State W) :
  exists k evs,
    (k <= fuel)%nat /\
    trace (snd (claimLoop node fuel s)) = trace s ++ evs /\
    waits evs = repeat 5000 k /\
    match fst (claimLoop node fuel s) with
    | Exited => (k < fuel)%nat /\ count isClaimTokens evs = S k
    | OutOfFuel => k = fuel /\ count isClaimTokens evs = k
    end.
Proof.
  revert s. induction fuel as [| fuel IH]; intros s.
  - exists 0%nat, []. cbn. rewrite app_nil_r. repeat split. lia.
  - destruct (isOk (fst (claimTokens node s))) eqn:H.
    + rewrite (claimLoop_exit node fuel s H). cbn [fst snd].
      destruct (claimTokens_trace node s) as (e & E & F).
      apply forallb_inner_quiet in F.
      exists 0%nat, (EvClaimTokens :: e).
      split; [lia |]. split; [exact E |]. split; [| split; [lia |]].
      * change (waits (EvClaimTokens :: e)) with (waits e).
        now apply quiet_waits.
      * change (count isClaimTokens (EvClaimTokens :: e))
          with (S (count isClaimTokens e)).
        now rewrite quiet_claims.
    + rewrite (claimLoop_retry node fuel s H).
      destruct (retryStep_trace node s) as (e0 & E0 & W0 & C0).
      destruct (IH (retryStep node s)) as (k & evs & Hk & E & Wt & Hc).
      exists (S k), (e0 ++ evs).
      split; [lia |]. split; [rewrite E, E0; now rewrite app_assoc |].
      split; [rewrite waits_app, W0, Wt; reflexivity |].
      rewrite count_app, C0.
      destruct (fst (claimLoop node fuel (retryStep node s)));
        destruct Hc as [Hk' Hc]; rewrite Hc; split; lia.
Qed.

Lemma rejected_claim_fails (s : State W) :
  (forall ov w, isOk (fst (claim_claim node ov w)) = false) ->
  isOk (fst (claimTokens node s)) = false.
Proof.
  intros Hrej. unfold claimTokens, sendWithDynamicGas. run.
  destruct (provider_getFeeData node (world s)) as [[fd | e] w1];
    cbn [world trace fst snd]; [| reflexivity].
  specialize (Hrej (overrides fd) w1).
  destruct (claim_claim node (overrides fd) w1) as [[tx | e] w2];
    [discriminate | reflexivity].
Qed.

(** X11: on a node that rejects every claim submission the first loop is
    never left, however many passes it is given, so [main] never reaches
    its monitor loop. *)
Theorem rejected_claim_never_exits (fuel1 fuel2 : nat) (s : State W) :
  (forall ov w, isOk (fst (claim_claim node ov w)) = false) ->
  fst (claimLoop node fuel1 s) = OutOfFuel /\
  main node fuel1 fuel2 s = claimLoop node fuel1 s.
Proof.
  intros Hrej.
  assert (Hout : forall fuel s0, fst (claimLoop node fuel s0) = OutOfFuel).
  { induction fuel as [| fuel IH]; intros s0; [reflexivity |].
    rewrite (claimLoop_retry node fuel s0 (rejected_claim_fails s0 Hrej)).
    apply IH. }
  split; [apply Hout |].
  unfold main. specialize (Hout fuel1 s).
  destruct (claimLoop node fuel1 s) as [[|] s1]; [discriminate | reflexivity].
Qed.

(** X12: on a node whose token balance reads are all rejected or not
    positive, the monitor loop is never left and each of its passes is one
    poll and nothing else: no sweep is started, nothing is submitted. *)
Theorem monitor_idle (fuel : nat) (s : State W) :
  (forall w, nothingToSweep
               (fst (erc20_balanceOf node TOKEN_CONTRACT (signer_address node) w))) ->
  fst (monitorLoop node fuel s) = OutOfFuel /\
  trace (snd (monitorLoop node fuel s)) =
    trace s ++ repeat EvGetTokenBalance fuel.
Proof.
  intros Hidle. revert s. induction fuel as [| fuel IH]; intros s.
  - cbn. now rewrite app_nil_r.
  - cbn [monitorLoop].
    assert (Hpass : exists w1,
      try_catch (checkAndSweep node) (fun _ => ret false) s =
        (Ok false, mkState w1 (trace s ++ [EvGetTokenBalance]))).
    { unfold checkAndSweep, getTokenBalance. run.
      specialize (Hidle (world s)).
      destruct (erc20_balanceOf node TOKEN_CONTRACT (signer_address node) (world s))
        as [[b | e] w1]; cbn [fst nothingToSweep] in Hidle;
        exists w1; [| reflexivity].
      destruct (Z.ltb_spec 0 b) as [Hlt | _]; [lia |].
      now rewrite andb_false_r. }
    destruct Hpass as (w1 & ->).
    destruct (IH (mkState w1 (trace s ++ [EvGetTokenBalance]))) as [Ho Et].
    split; [exact Ho |]. rewrite Et. cbn [trace repeat].
    now rewrite <- app_assoc.
Qed.

(** A pass that ran to the end of its branch: the poll read a positive
    balance and both sweeps returned. *)
Lemma guarded_done (s s1 : State W) :
  try_catch (checkAndSweep node) (fun _ => ret false) s = (Ok true, s1) ->
  exists w b r1 s5 r2,
    erc20_balanceOf node TOKEN_CONTRACT (signer_address node) (world s) =
      (Ok b, w) /\
    0 < b /\
    transferAllToken node RECEIVER TOKEN_CONTRACT
      (mkState w (trace s ++ [EvGetTokenBalance])) = (Ok r1, s5) /\
    transferAllNativeMinusGas node RECEIVER s5 = (Ok r2, s1).
Proof.
  unfold try_catch, checkAndSweep, getTokenBalance.
  unfold bind at 1 2, emit at 1, call at 1. cbn [world trace fst snd].
  destruct (erc20_balanceOf node TOKEN_CONTRACT (signer_address node) (world s))
    as [[b | e] w]; cbn [world trace fst snd]; [| discriminate].
  destruct (negb (b =? 0) && (0 <? b)) eqn:G; [| discriminate].
  apply andb_prop in G as [_ G]. apply Z.ltb_lt in G.
  unfold bind at 1.
  destruct (transferAllToken node RECEIVER TOKEN_CONTRACT
              (mkState w (trace s ++ [EvGetTokenBalance])))
    as [[r1 | e] s5] eqn:Ht; [| discriminate].
  unfold bind at 1.
  destruct (transferAllNativeMinusGas node RECEIVER s5)
    as [[r2 | e] s6] eqn:Hn; [| discriminate].
  intros [= <-]. now exists w, b, r1, s5, r2.
Qed.

(** X13: the monitor loop is left only at the end of a pass in which the
    poll read a positive balance and the token sweep and then the native
    sweep both returned without raising; the run ends with that poll, the
    token sweep and the native sweep, in this order. *)
Theorem monitor_exit_after_sweep (fuel : nat) (s s' : State W) :
  monitorLoop node fuel s = (Exited, s') ->
  exists pre e1 e2,
    trace s' =
      trace s ++ pre ++
      EvGetTokenBalance :: EvTransferAllToken :: e1 ++
      EvTransferAllNative :: e2 /\
    forallb inner e1 = true /\ forallb inner e2 = true /\
    exists s3 w b r1 s5 r2,
      trace s3 = trace s ++ pre /\
      erc20_balanceOf node TOKEN_CONTRACT (signer_address node) (world s3) =
        (Ok b, w) /\
      0 < b /\
      transferAllToken node RECEIVER TOKEN_CONTRACT
        (mkState w (trace s3 ++ [EvGetTokenBalance])) = (Ok r1, s5) /\
      transferAllNativeMinusGas node RECEIVER s5 = (Ok r2, s').
Proof.
  revert s. induction fuel as [| fuel IH]; intros s; cbn [monitorLoop];
    [discriminate |].
  destruct (guarded_pass s) as (done & evs & s1 & R & E & P).
  rewrite R. destruct done.
  - intros [= <-].
    destruct (guarded_done s s1 R) as (w & b & r1 & s5 & r2 & Hb & Hpos & Ht & Hn).
    destruct (transferAllToken_trace node RECEIVER TOKEN_CONTRACT
                (mkState w (trace s ++ [EvGetTokenBalance]))) as (e1 & E1 & F1).
    rewrite Ht in E1. cbn [snd trace] in E1.
    destruct (transferAllNativeMinusGas_trace node RECEIVER s5) as (e2 & E2 & F2).
    rewrite Hn in E2. cbn [snd] in E2.
    exists [], e1, e2. split; [| split; [exact F1 | split; [exact F2 |]]].
    + rewrite E2, E1. cbn [app]. now rewrite <- !app_assoc.
    + exists s, w, b, r1, s5, r2. rewrite app_nil_r. now repeat split.
  - intros H.
    destruct (IH s1 H)
      as (pre & e1 & e2 & E' & F1 & F2 & s3 & w & b & r1 & s5 & r2 &
          E3 & Hb & Hpos & Ht & Hn).
    exists (evs ++ pre), e1, e2.
    split; [| split; [exact F1 | split; [exact F2 |]]].
    + rewrite E', E. now rewrite <- !app_assoc.
    + exists s3, w, b, r1, s5, r2.
      split; [rewrite E3, E; now rewrite app_assoc | now repeat split].
Qed.

End LoopFacts.

Lemma claim_retry_n_failures_witness :
  claimLoop (scripted (demoScript (Ok feeDataLegacy))) 7 start =
    (Exited,
     snd (claimTokens (scripted (demoScript (Ok feeDataLegacy)))
            (afterFailures (scripted (demoScript (Ok feeDataLegacy))) 2 start))).
Proof.
  apply (proj1 (claim_retry_n_failures (scripted (demoScript (Ok feeDataLegacy)))
                  2 start
                  ltac:(intros [| [| k]] Hk; [reflexivity | reflexivity | lia])
                  eq_refl)).
  lia.
Defined.

Lemma rejected_claim_never_exits_witness :
  fst (claimLoop (scripted rejectingScript) 5 start) = OutOfFuel /\
  main (scripted rejectingScript) 5 9 start =
    claimLoop (scripted rejectingScript) 5 start.
Proof.
  apply (rejected_claim_never_exits (scripted rejectingScript) 5 9 start).
  intros ov w. reflexivity.
Defined.

Lemma monitor_idle_witness :
  fst (monitorLoop (scripted idleScript) 6 start) = OutOfFuel /\
  trace (snd (monitorLoop (scripted idleScript) 6 start)) =
    trace start ++ repeat EvGetTokenBalance 6.
Proof.
  apply (monitor_idle (scripted idleScript) 6 start).
  intros w. cbn. lia.
Defined.

Lemma monitor_exit_after_sweep_witness :
  let node := scripted (demoScript (Ok feeData1559)) in
  let s' := snd (monitorLoop node 4 start) in
  exists pre e1 e2,
    trace s' =
      trace start ++ pre ++
      EvGetTokenBalance :: EvTransferAllToken :: e1 ++
      EvTransferAllNative :: e2 /\
    forallb inner e1 = true /\ forallb inner e2 = true /\
    exists s3 w b r1 s5 r2,
      trace s3 = trace start ++ pre /\
      erc20_balanceOf node TOKEN_CONTRACT (signer_address node) (world s3) =
        (Ok b, w) /\
      0 < b /\
      transferAllToken node RECEIVER TOKEN_CONTRACT
        (mkState w (trace s3 ++ [EvGetTokenBalance])) = (Ok r1, s5) /\
      transferAllNativeMinusGas node RECEIVER s5 = (Ok r2, s').
Proof.
  intros node s'.
  apply (monitor_exit_after_sweep node 4 start s').
  reflexivity.
Defined.

(** ** Order of polls and sweeps, and swallowed errors *)

Section Order.

Context {W : Type} (node : Node W).

Lemma ordered_nil : ordered [].
Proof.
  split; reflexivity.
Qed.

Lemma ordered_app (t u : list Event) :
  ordered t -> ordered u -> ordered (t ++ u).
Proof.
  unfold ordered. rewrite !count_app. lia.
Qed.

Lemma ordered_quiet_free (evs : list Event) :
  count isPoll evs = 0%nat -> count isTokenSweep evs = 0%nat ->
  count isNativeSweep evs = 0%nat -> ordered evs.
Proof.
  unfold ordered. lia.
Qed.

Lemma inner_counts (evs : list Event) :
  forallb inner evs = true ->
  count isPoll evs = 0%nat /\ count isTokenSweep evs = 0%nat /\
  count isNativeSweep evs = 0%nat.
Proof.
  intros F. repeat split; apply (count_none inner); try assumption;
    intros []; cbn; congruence.
Qed.

Lemma ordered_pass (done : bool) (evs : list Event) :
  Pass done evs -> ordered evs.
Proof.
  intros P. destruct P as [| e1 F1 | d e1 e2 F1 F2].
  - split; cbn; lia.
  - destruct (inner_counts e1 F1) as (A & B & C).
    change (EvGetTokenBalance :: EvTransferAllToken :: e1)
      with ([EvGetTokenBalance; EvTransferAllToken] ++ e1).
    apply ordered_app; [split; cbn; lia | now apply ordered_quiet_free].
  - destruct (inner_counts e1 F1) as (A1 & B1 & C1).
    destruct (inner_counts e2 F2) as (A2 & B2 & C2).
    change (EvGetTokenBalance :: EvTransferAllToken :: e1 ++
            EvTransferAllNative :: e2)
      with ([EvGetTokenBalance; EvTransferAllToken] ++ e1 ++
            [EvTransferAllNative] ++ e2).
    unfold ordered. rewrite !count_app, A1, B1, C1, A2, B2, C2. cbn. lia.
Qed.

Lemma ordered_claim (s : State W) :
  exists evs,
    trace (snd (claimTokens node s)) = trace s ++ evs /\ ordered evs.
Proof.
  destruct (claimTokens_trace node s) as (e & E & F).
  destruct (inner_counts e F) as (A & B & C).
  exists (EvClaimTokens :: e). split; [exact E |].
  change (EvClaimTokens :: e) with ([EvClaimTokens] ++ e).
  apply ordered_app; [split; cbn; lia | now apply ordered_quiet_free].
Qed.

Lemma ordered_claimLoop (fuel : nat) (s : State W) :
  exists evs,
    trace (snd (claimLoop node fuel s)) = trace s ++ evs /\ ordered evs.
Proof.
  revert s. induction fuel as [| fuel IH]; intros s.
  - exists []. cbn. rewrite app_nil_r. split; [reflexivity | apply ordered_nil].
  - destruct (ordered_claim s) as (e0 & E0 & O0).
    destruct (isOk (fst (claimTokens node s))) eqn:H.
    + rewrite (claimLoop_exit node fuel s H). now exists e0.
    + rewrite (claimLoop_retry node fuel s H). unfold retryStep.
      set (s1 := snd (claimTokens node s)) in *.
      pose proof (wait_trace node 5000 s1) as E1.
      set (s2 := snd (wait node 5000 s1)) in *.
      destruct (guarded_pass node s2) as (done & e2 & s3 & R & E2 & P).
      rewrite R. cbn [snd].
      destruct (IH s3) as (e3 & E3 & O3).
      exists (e0 ++ [EvWait 5000] ++ e2 ++ e3). split.
      * rewrite E3, E2, E1, E0. now rewrite <- !app_assoc.
      * apply ordered_app; [exact O0 |].
        apply ordered_app; [split; cbn; lia |].
        apply ordered_app; [now apply (ordered_pass done) | exact O3].
Qed.

Lemma ordered_monitorLoop (fuel : nat) (s : State W) :
  exists evs,
    trace (snd (monitorLoop node fuel s)) = trace s ++ evs /\ ordered evs.
Proof.
  revert s. induction fuel as [| fuel IH]; intros s; cbn [monitorLoop].
  - exists []. cbn. rewrite app_nil_r. split; [reflexivity | apply ordered_nil].
  - destruct (guarded_pass node s) as (done & e1 & s1 & -> & E1 & P).
    apply ordered_pass in P.
    destruct done.
    + now exists e1.
    + destruct (IH s1) as (e2 & E2 & O2).
      exists (e1 ++ e2). split; [rewrite E2, E1; now rewrite app_assoc |].
      now apply ordered_app.
Qed.

(** X14: in every run of [main], for any fuel, the native sweep has been
    started at most as often as the token sweep, and the token sweep at
    most as often as the token balance was polled: no sweep without a poll
    before it, no native sweep without a token sweep before it. *)
Theorem sweep_order (fuel1 fuel2 : nat) (s : State W) :
  exists evs,
    trace (snd (main node fuel1 fuel2 s)) = trace s ++ evs /\
    (count isNativeSweep evs <= count isTokenSweep evs)%nat /\
    (count isTokenSweep evs <= count isPoll evs)%nat.
Proof.
  unfold main.
  destruct (ordered_claimLoop fuel1 s) as (e1 & E1 & O1).
  destruct (claimLoop node fuel1 s) as [[|] s1]; cbn [snd] in E1.
  - destruct (ordered_monitorLoop fuel2 s1) as (e2 & E2 & O2).
    exists (e1 ++ e2). split; [rewrite E2, E1; now rewrite app_assoc |].
    now apply ordered_app.
  - now exists e1.
Qed.

(** X15: in a pass of the monitor loop that polls a positive token
    balance, an error raised by the token sweep is swallowed: the native
    sweep of that pass is not started and the loop goes on with its next
    pass; an error raised by the native sweep is swallowed in the same
    way. *)
Theorem monitor_swallows_sweep_errors (fuel : nat) (s : State W) (w : W)
    (b : Z) :
  erc20_balanceOf node TOKEN_CONTRACT (signer_address node) (world s) = (Ok b, w) ->
  0 < b ->
  let s1 := mkState w (trace s ++ [EvGetTokenBalance]) in
  (forall e s5,
      transferAllToken node RECEIVER TOKEN_CONTRACT s1 = (Throw e, s5) ->
      monitorLoop node (S fuel) s = monitorLoop node fuel s5 /\
      exists e1, trace s5 = trace s1 ++ EvTransferAllToken :: e1 /\
                 forallb inner e1 = true) /\
  (forall r1 s5 e s6,
      transferAllToken node RECEIVER TOKEN_CONTRACT s1 = (Ok r1, s5) ->
      transferAllNativeMinusGas node RECEIVER s5 = (Throw e, s6) ->
      monitorLoop node (S fuel) s = monitorLoop node fuel s6).
Proof.
  intros Hb Hpos s1.
  assert (Hguard : negb (b =? 0) && (0 <? b) = true).
  { destruct (Z.eqb_spec b 0); [lia |].
    destruct (Z.ltb_spec 0 b); [reflexivity | lia]. }
  split.
  - intros e s5 Ht. split.
    + cbn [monitorLoop]. unfold checkAndSweep, getTokenBalance. run.
      rewrite Hb, Hguard. fold s1. now rewrite Ht.
    + destruct (transferAllToken_trace node RECEIVER TOKEN_CONTRACT s1)
        as (e1 & E1 & F1).
      rewrite Ht in E1. now exists e1.
  - intros r1 s5 e s6 Ht Hn.
    cbn [monitorLoop]. unfold checkAndSweep, getTokenBalance. run.
    rewrite Hb, Hguard. fold s1. now rewrite Ht, Hn.
Qed.

End Order.

Lemma monitor_swallows_sweep_errors_witness :
  monitorLoop (scripted (holding 5 (Some 0) feeData1559)) 3 start =
    monitorLoop (scripted (holding 5 (Some 0) feeData1559)) 2
      (snd (transferAllToken (scripted (holding 5 (Some 0) feeData1559))
              RECEIVER TOKEN_CONTRACT
              (mkState (mkCounters 0 1) [EvGetTokenBalance]))) /\
  monitorLoop (scripted (settling feeDataNone)) 3 start =
    monitorLoop (scripted (settling feeDataNone)) 2
      (snd (transferAllNativeMinusGas (scripted (settling feeDataNone)) RECEIVER
              (snd (transferAllToken (scripted (settling feeDataNone))
                      RECEIVER TOKEN_CONTRACT
                      (mkState (mkCounters 0 1) [EvGetTokenBalance]))))).
Proof.
  split.
  - apply (proj1 (monitor_swallows_sweep_errors
                    (scripted (holding 5 (Some 0) feeData1559)) 2 start
                    (mkCounters 0 1) 42 eq_refl ltac:(lia))
             (TxFailedError (DescTransfer "TKN"))).
    reflexivity.
  - apply (proj2 (monitor_swallows_sweep_errors
                    (scripted (settling feeDataNone)) 2 start
                    (mkCounters 0 1) 42 eq_refl ltac:(lia))
             (Some (mkReceipt 1000 (Some 1)))
             (snd (transferAllToken (scripted (settling feeDataNone))
                     RECEIVER TOKEN_CONTRACT
                     (mkState (mkCounters 0 1) [EvGetTokenBalance])))
             NoGasPriceError);
      reflexivity.
Defined.

(** ** The environment check *)

Lemma trimStart_nil_iff (s : JsString) :
  trimStart s = [] <-> forallb isWhiteSpace s = true.
Proof.
  induction s as [| c r IH]; cbn; [tauto |].
  destruct (isWhiteSpace c); cbn; [exact IH |].
  split; discriminate.
Qed.

Lemma trimStart_head (s r : JsString) (c : N) :
  trimStart s = c :: r -> isWhiteSpace c = false.
Proof.
  induction s as [| d t IH]; cbn; [discriminate |].
  destruct (isWhiteSpace d) eqn:E; [exact IH |].
  intros [= <- _]. exact E.
Qed.

Lemma forallb_rev_true (p : N -> bool) (s : JsString) :
  forallb p (rev s) = true -> forallb p s = true.
Proof.
  rewrite !forallb_forall. intros H x Hx. apply H. now apply in_rev in Hx.
Qed.

(** [trim] leaves nothing exactly of the strings made of white space. *)
Lemma trim_nil_iff (s : JsString) :
  trim s = [] <-> forallb isWhiteSpace s = true.
Proof.
  unfold trim, trimEnd. split.
  - intros H.
    assert (H' : trimStart (rev (trimStart s)) = []).
    { destruct (trimStart (rev (trimStart s))) as [| c r]; [reflexivity |].
      cbn in H. now destruct (rev r). }
    apply trimStart_nil_iff, forallb_rev_true in H'.
    destruct (trimStart s) as [| c r] eqn:E.
    + now apply trimStart_nil_iff.
    + apply trimStart_head in E. cbn in H'. now rewrite E in H'.
  - intros H. apply trimStart_nil_iff in H. now rewrite H.
Qed.

Lemma isMissing_iff (env : ProcessEnv) (k : string) :
  isMissing env k = true <-> unusable env k.
Proof.
  unfold isMissing, unusable.
  destruct (env k) as [[| c r] |]; [tauto | | tauto].
  rewrite <- trim_nil_iff.
  destruct (trim (c :: r)); split; congruence.
Qed.

Lemma isMissing_false_iff (env : ProcessEnv) (k : string) :
  isMissing env k = false <-> ~ unusable env k.
Proof.
  rewrite <- isMissing_iff. destruct (isMissing env k); split; congruence.
Qed.

(** X16: [assertEnv] returns exactly when [RPC_URL] and [PRIVATE_KEY] are
    both set to a value with something else than white space in it;
    otherwise it throws, naming the unusable ones among the two, in this
    order, separated by a comma and a space. *)
Theorem assertEnv_checks_both (env : ProcessEnv) :
  (assertEnv env = inr tt <->
     ~ unusable env "RPC_URL" /\ ~ unusable env "PRIVATE_KEY") /\
  (unusable env "RPC_URL" -> ~ unusable env "PRIVATE_KEY" ->
     assertEnv env = inl (MissingEnvError "RPC_URL")) /\
  (~ unusable env "RPC_URL" -> unusable env "PRIVATE_KEY" ->
     assertEnv env = inl (MissingEnvError "PRIVATE_KEY")) /\
  (unusable env "RPC_URL" -> unusable env "PRIVATE_KEY" ->
     assertEnv env = inl (MissingEnvError "RPC_URL, PRIVATE_KEY")).
Proof.
  rewrite <- !isMissing_false_iff, <- !isMissing_iff.
  unfold assertEnv, REQUIRED_ENVS. cbn [filter].
  destruct (isMissing env "RPC_URL"), (isMissing env "PRIVATE_KEY"); cbn;
    repeat split; try congruence; try (intros [? ?]; congruence).
Qed.

Lemma assertEnv_checks_both_witness :
  assertEnv (envOf (Some [104; 116; 116; 112]%N) (Some [32; 9; 10]%N)) =
    inl (MissingEnvError "PRIVATE_KEY") /\
  assertEnv (envOf None (Some []%N)) =
    inl (MissingEnvError "RPC_URL, PRIVATE_KEY").
Proof.
  split.
  - apply (proj1 (proj2 (proj2 (assertEnv_checks_both
             (envOf (Some [104; 116; 116; 112]%N) (Some [32; 9; 10]%N)))))).
    + cbn. discriminate.
    + reflexivity.
  - apply (proj2 (proj2 (proj2 (assertEnv_checks_both
             (envOf None (Some []%N)))))).
    + exact I.
    + reflexivity.
Defined.

(** ** The claim phase without a token balance *)

Section ClaimPhase.

Context {W : Type} (node : Node W).

Lemma claimTokens_claimOnly : emitsOnly claimOnly (claimTokens node).
Proof.
  unfold claimTokens, sendWithDynamicGas.
  apply emitsOnly_bind; [now apply emitsOnly_emit |]. intros _.
  apply emitsOnly_bind; [apply emitsOnly_call |]. intros fd.
  apply emitsOnly_bind.
  { apply emitsOnly_bind; [now apply emitsOnly_emit |]. intros _.
    apply emitsOnly_call. }
  intros tx. apply emitsOnly_bind; [apply emitsOnly_call |]. intros rc.
  auto with emits.
Qed.

Lemma idle_pass (s : State W) :
  nothingToSweep
    (fst (erc20_balanceOf node TOKEN_CONTRACT (signer_address node) (world s))) ->
  exists w1,
    try_catch (checkAndSweep node) (fun _ => ret false) s =
      (Ok false, mkState w1 (trace s ++ [EvGetTokenBalance])).
Proof.
  intros Hidle. unfold checkAndSweep, getTokenBalance. run.
  destruct (erc20_balanceOf node TOKEN_CONTRACT (signer_address node) (world s))
    as [[b | e] w1]; cbn [fst nothingToSweep] in Hidle;
    exists w1; [| reflexivity].
  destruct (Z.ltb_spec 0 b) as [Hlt | _]; [lia |].
  now rewrite andb_false_r.
Qed.

(** X17: on a node whose token balance reads are all rejected or not
    positive, the first loop starts no sweep, for any fuel: all it does is
    attempt and submit the claim, set its timer and poll. *)
Theorem claim_phase_idle (fuel : nat) (s : State W) :
  (forall w, nothingToSweep
               (fst (erc20_balanceOf node TOKEN_CONTRACT (signer_address node) w))) ->
  exists evs,
    trace (snd (claimLoop node fuel s)) = trace s ++ evs /\
    forallb claimOnly evs = true.
Proof.
  intros Hidle. revert s. induction fuel as [| fuel IH]; intros s.
  - exists []. cbn. now rewrite app_nil_r.
  - destruct (claimTokens_claimOnly s) as (e0 & E0 & F0).
    destruct (isOk (fst (claimTokens node s))) eqn:H.
    + rewrite (claimLoop_exit node fuel s H). now exists e0.
    + rewrite (claimLoop_retry node fuel s H). unfold retryStep.
      set (s1 := snd (claimTokens node s)) in *.
      pose proof (wait_trace node 5000 s1) as E1.
      set (s2 := snd (wait node 5000 s1)) in *.
      destruct (idle_pass s2 (Hidle (world s2))) as (w3 & ->). cbn [snd].
      destruct (IH (mkState w3 (trace s2 ++ [EvGetTokenBalance])))
        as (e3 & E3 & F3).
      exists (e0 ++ [EvWait 5000] ++ [EvGetTokenBalance] ++ e3). split.
      * rewrite E3. cbn [trace]. rewrite E1, E0. now rewrite <- !app_assoc.
      * rewrite !forallb_app, F0, F3. reflexivity.
Qed.

End ClaimPhase.

Lemma claim_phase_idle_witness :
  exists evs,
    trace (snd (claimLoop (scripted idleScript) 4 start)) = trace start ++ evs /\
    forallb claimOnly evs = true.
Proof.
  apply (claim_phase_idle (scripted idleScript) 4 start).
  intros w. cbn. lia.
Defined.
